(** * Canasta rules engine: actions and game orchestration

    A shallow embedding of [base/game.py], [base/actions/put_action.py] and
    [base/actions/discard_card_action.py].

    Python methods mutate the objects they are handed and may raise, so a
    method becomes a computation in a state-and-exception monad over the
    objects it can reach; an exception keeps the state reached when it was
    raised.  Console output and logging are not part of the game state and
    are left out. *)

From Stdlib Require Import ZArith List String Ascii Bool Lia Permutation.
Import ListNotations.

Local Open Scope Z_scope.

(** ** Python run-time conventions *)

Module Py.

Inductive exn : Type :=
| Exception (msg : string)
| TypeError
| AttributeError
| IndexError
| ValueError.

Inductive outcome (A : Type) : Type :=
| Returned (a : A)
| Raised (e : exn).

Arguments Returned {A} a.
Arguments Raised {A} e.

(** A computation over a store [S]: the outcome and the store it leaves. *)
Definition M (S A : Type) : Type := S -> outcome A * S.

Definition ret {S A} (a : A) : M S A := fun s => (Returned a, s).

Definition bind {S A B} (m : M S A) (k : A -> M S B) : M S B :=
  fun s =>
    match m s with
    | (Returned a, s') => k a s'
    | (Raised e, s') => (Raised e, s')
    end.

Definition raise {S A} (e : exn) : M S A := fun s => (Raised e, s).

Definition gets {S A} (f : S -> A) : M S A := fun s => (Returned (f s), s).

Definition modify {S} (f : S -> S) : M S unit := fun s => (Returned tt, f s).

(** Reading an attribute of an object that may still be [None]. *)
Definition attr {S A} (f : S -> option A) : M S A :=
  fun s =>
    match f s with
    | Some a => (Returned a, s)
    | None => (Raised AttributeError, s)
    end.

(** [l[i]] on a list: negative indices count from the end, anything out of
    range raises [IndexError] (here: [None]). *)
Definition getitem {A} (l : list A) (i : Z) : option A :=
  if 0 <=? i then nth_error l (Z.to_nat i)
  else if 0 <=? i + Z.of_nat (List.length l) then nth_error l (Z.to_nat (i + Z.of_nat (List.length l)))
  else None.

(** [len(l)] *)
Definition len {A} (l : list A) : Z := Z.of_nat (List.length l).

(** [range(n)] *)
Definition range (n : Z) : list Z := map Z.of_nat (seq 0 (Z.to_nat n)).

(** A computation that only reads: built from [ret], [gets], [attr],
    [raise] and [bind]. *)
Inductive ReadOnly {S} : forall {A}, M S A -> Prop :=
| RO_ret : forall A (a : A), ReadOnly (ret a)
| RO_gets : forall A (f : S -> A), ReadOnly (gets f)
| RO_attr : forall A (f : S -> option A), ReadOnly (attr f)
| RO_raise : forall A (e : exn), ReadOnly (@raise S A e)
| RO_bind : forall A B (m : M S A) (k : A -> M S B),
    ReadOnly m -> (forall a, ReadOnly (k a)) -> ReadOnly (bind m k).

End Py.

Import Py.

Declare Scope py_scope.
Delimit Scope py_scope with py.
Notation "x <- c1 ;; c2" := (bind c1 (fun x => c2))
  (at level 100, c1 at next level, right associativity) : py_scope.
Notation "c1 ;; c2" := (bind c1 (fun _ => c2))
  (at level 100, right associativity) : py_scope.
Local Open Scope py_scope.

Create HintDb readonly.
#[export] Hint Constructors ReadOnly : readonly.

(** ** Data model *)

(** Modelled from the spec: [base/enums/game_phase.py] is missing.  The
    phases are the members the sources name and the finished phase the
    specification lists. *)
Inductive GamePhase : Type :=
| DRAW_PHASE
| ACTION_PHASE
| PLAY_JOKER_PHASE
| END_TURN_PHASE
| NO_CARDS_PHASE
| NO_CARDS_END_TURN_PHASE
| FINISHED_PHASE.

Definition GamePhase_eqb (a b : GamePhase) : bool :=
  match a, b with
  | DRAW_PHASE, DRAW_PHASE
  | ACTION_PHASE, ACTION_PHASE
  | PLAY_JOKER_PHASE, PLAY_JOKER_PHASE
  | END_TURN_PHASE, END_TURN_PHASE
  | NO_CARDS_PHASE, NO_CARDS_PHASE
  | NO_CARDS_END_TURN_PHASE, NO_CARDS_END_TURN_PHASE
  | FINISHED_PHASE, FINISHED_PHASE => true
  | _, _ => false
  end.

(** Modelled from the spec: [base/enums/team_color.py] is missing; the two
    colours are those [game.py] names. *)
Inductive TeamColor : Type := RED | BLUE.

(** Modelled from the spec: [base/card.py] is missing.  A card is an
    immutable value with rank, suit, special status (joker, wildcard) and a
    point value; two cards of the same value are interchangeable. *)
Record Card : Type := mkCard {
  rank : Z;
  suit : Z;
  joker : bool;
  wildcard : bool;
  score : Z
}.

Definition Card_eqb (a b : Card) : bool :=
  (rank a =? rank b) && (suit a =? suit b) && Bool.eqb (joker a) (joker b)
  && Bool.eqb (wildcard a) (wildcard b) && (score a =? score b).

(** Modelled from the spec: [card.is_joker()] and [card.get_score()] read
    the special status and the point value. *)
Definition is_joker (c : Card) : bool := joker c.
Definition get_score (c : Card) : Z := score c.

(** Modelled from the spec: [base/cards/card_series.py] is missing.  A
    series is an ordered collection of cards. *)
Record CardSeries : Type := mkSeries { cards : list Card }.

(** Modelled from the spec: a pure series contains no wildcards or jokers.
    The spec says nothing about the number of cards of a pure series. *)
Definition is_pure (s : CardSeries) : bool :=
  forallb (fun c => negb (joker c) && negb (wildcard c)) (cards s).

(** Modelled from the spec: [base/cards/hand.py], [stack.py] and [deck.py]
    are missing.  A hand supports a membership test, removal by value and an
    emptiness check; stacks and decks are ordered collections. *)
Definition Hand : Type := list Card.
Definition Stack : Type := list Card.
Definition Deck : Type := list Card.

(** Modelled from the spec: [card in hand], membership by value. *)
Definition Hand_contains (h : Hand) (c : Card) : bool := existsb (Card_eqb c) h.

(** Modelled from the spec: [hand.is_empty()]. *)
Definition Hand_is_empty (h : Hand) : bool :=
  match h with [] => true | _ => false end.

(** Modelled from the spec: [hand.pop(card)], removal by value: the held
    card equal to [card] and the hand without it.  The spec leaves open what
    happens when no such card is held; here the result is [None] and the
    call raises, as removing a missing element from a Python list does. *)
Fixpoint Hand_pop (h : Hand) (c : Card) : option (Card * Hand) :=
  match h with
  | [] => None
  | x :: h' =>
      if Card_eqb c x then Some (x, h')
      else match Hand_pop h' c with
           | Some (y, h'') => Some (y, x :: h'')
           | None => None
           end
  end.

(** Modelled from the spec: [stack.put(card)] pushes the card. *)
Definition Stack_put (s : Stack) (c : Card) : Stack := c :: s.

(** Modelled from the spec: [deck.is_empty()]. *)
Definition Deck_is_empty (d : Deck) : bool :=
  match d with [] => true | _ => false end.

(** Modelled from the spec: [deck.deal_n(count)] takes [count] cards out of
    the deck and gives them.  The spec has the signature only: that the
    cards are the first ones and that a deck with too few cards fails
    ([None]) are choices of this model. *)
Definition Deck_deal_n (d : Deck) (count : Z) : option (list Card * Deck) :=
  let n := Z.to_nat count in
  if (n <=? List.length d)%nat then Some (firstn n d, skipn n d) else None.

(** Modelled from the spec: [deck.deal()] takes one card out of the deck
    and gives it; which card, and that an empty deck fails ([None]), are
    choices of this model. *)
Definition Deck_deal (d : Deck) : option (Card * Deck) :=
  match d with
  | [] => None
  | c :: d' => Some (c, d')
  end.

Inductive PlayerKind : Type := AIPlayer | HumanPlayer.

(** Modelled from the spec: [base/player.py] is missing.  A player has an
    identity, owns its hand and refers to its team; the reference is the
    team's colour. *)
Record Player : Type := mkPlayer {
  kind : PlayerKind;
  identifier : Z;
  hand : Hand;
  team : option TeamColor
}.

(** Modelled from the spec: [player.num_cards()], the size of the hand. *)
Definition num_cards (p : Player) : Z := len (hand p).

(** Modelled from the spec: [player.deal(hand)] hands the player its cards;
    [with_hand] also writes back a hand that [pop] has changed. *)
Definition with_hand (p : Player) (h : Hand) : Player :=
  {| kind := kind p; identifier := identifier p; hand := h; team := team p |}.

(** Modelled from the spec: [player.set_team(team)]. *)
Definition set_team (p : Player) (c : TeamColor) : Player :=
  {| kind := kind p; identifier := identifier p; hand := hand p; team := Some c |}.

(** Modelled from the spec: [base/team.py] is missing.  A team knows its
    players (by their position in the game's player list), its colour and
    whether it has grabbed a pile. *)
Record Team : Type := mkTeam {
  team_players : list Z;
  color : TeamColor;
  grabbed_pile : bool
}.

(** Modelled from the spec: [team.has_grabbed_pile()] reads the flag. *)
Definition has_grabbed_pile (t : Team) : bool := grabbed_pile t.

(** Modelled from the spec: [base/board.py] is missing.  The board owns the
    deck, the discard stack, the two piles, the two teams' series and the
    current phase. *)
Record Board : Type := mkBoard {
  deck : Deck;
  left_pile : Stack;
  right_pile : Stack;
  stack : Stack;
  red_team_series : list CardSeries;
  blue_team_series : list CardSeries;
  phase : GamePhase
}.

(** Modelled from the spec: [Board(deck, left_pile, right_pile)] starts with
    an empty stack and no series. *)
Definition Board_init (d : Deck) (l r : Stack) : Board :=
  {| deck := d; left_pile := l; right_pile := r; stack := [];
     red_team_series := []; blue_team_series := []; phase := DRAW_PHASE |}.

(** Modelled from the spec: [board.set_phase(phase)], the setter of the
    phase. *)
Definition set_phase (b : Board) (ph : GamePhase) : Board :=
  {| deck := deck b; left_pile := left_pile b; right_pile := right_pile b;
     stack := stack b; red_team_series := red_team_series b;
     blue_team_series := blue_team_series b; phase := ph |}.

Definition with_deck (b : Board) (d : Deck) : Board :=
  {| deck := d; left_pile := left_pile b; right_pile := right_pile b;
     stack := stack b; red_team_series := red_team_series b;
     blue_team_series := blue_team_series b; phase := phase b |}.

Definition with_stack (b : Board) (s : Stack) : Board :=
  {| deck := deck b; left_pile := left_pile b; right_pile := right_pile b;
     stack := s; red_team_series := red_team_series b;
     blue_team_series := blue_team_series b; phase := phase b |}.

Definition series_of (b : Board) (c : TeamColor) : list CardSeries :=
  match c with RED => red_team_series b | BLUE => blue_team_series b end.

Definition with_series (b : Board) (c : TeamColor) (l : list CardSeries) : Board :=
  {| deck := deck b; left_pile := left_pile b; right_pile := right_pile b;
     stack := stack b;
     red_team_series := match c with RED => l | BLUE => red_team_series b end;
     blue_team_series := match c with RED => blue_team_series b | BLUE => l end;
     phase := phase b |}.

(** Modelled from the spec: [board.team_has_pure(team)] holds when the team
    has at least one pure series on the board. *)
Definition team_has_pure (b : Board) (t : Team) : bool :=
  existsb is_pure (series_of b (color t)).

(** ** Actions *)

Record DiscardCardAction : Type := mkDiscard {
  discard_card : Card;
  discard_is_executed : bool
}.

Record PutAction : Type := mkPut {
  series : CardSeries;
  put_is_executed : bool
}.

(** [PutAction(cards)] and [DiscardCardAction(card)] *)
Definition PutAction_init (cs : list Card) : PutAction :=
  {| series := mkSeries cs; put_is_executed := false |}.

Definition DiscardCardAction_init (c : Card) : DiscardCardAction :=
  {| discard_card := c; discard_is_executed := false |}.

(** The objects a method of an action can reach: the action itself, the
    player and the board it is handed. *)
Record Frame (A : Type) : Type := mkFrame {
  fr_self : A;
  fr_player : Player;
  fr_board : Board
}.

Arguments mkFrame {A} _ _ _.
Arguments fr_self {A} _.
Arguments fr_player {A} _.
Arguments fr_board {A} _.

Definition set_player {A} (p : Player) (f : Frame A) : Frame A :=
  mkFrame (fr_self f) p (fr_board f).

Definition set_board {A} (b : Board) (f : Frame A) : Frame A :=
  mkFrame (fr_self f) (fr_player f) b.

(** [x in l] for phases, and [any(l)]. *)
Definition phase_in (ph : GamePhase) (l : list GamePhase) : bool :=
  existsb (GamePhase_eqb ph) l.

Definition any (l : list bool) : bool := existsb (fun x => x) l.

(** [player.hand.pop(card)].  What [pop] does with a card that is not held
    is in neither the sources nor the spec: raising [ValueError] is a
    choice of this model. *)
Definition pop_from_hand {A} (c : Card) : M (Frame A) Card :=
  p <- gets fr_player ;;
  match Hand_pop (hand p) c with
  | Some (x, h') => modify (set_player (with_hand p h')) ;; ret x
  | None => raise ValueError
  end.

(** Modelled from the spec: [board.get_series_for_player(player)] is the
    series list of the player's team; the result says which of the board's
    two lists it is. *)
Definition get_series_for_player {A} : M (Frame A) TeamColor :=
  p <- gets fr_player ;;
  match team p with
  | Some c => ret c
  | None => raise AttributeError
  end.

(** [team_series.append(s)] *)
Definition append_series {A} (c : TeamColor) (s : CardSeries) : M (Frame A) unit :=
  b <- gets fr_board ;;
  modify (set_board (with_series b c (series_of b c ++ [s]))).

Section Engine.

(** Collaborators whose code is not part of the sources: the validity
    predicate and the total value of a series, the board's hand-clearing
    authorisation and its count of remaining piles. *)
Variable is_valid : CardSeries -> bool.
Variable get_total_value : CardSeries -> Z.
Variable player_may_clear_hand : Board -> Player -> PutAction -> bool.
Variable num_piles_remaining : Board -> Z.

(** *** [DiscardCardAction] *)

Definition DiscardCardAction_get_reward (a : DiscardCardAction) : Z := 1.

Definition DiscardCardAction_validate (verbose : bool) : M (Frame DiscardCardAction) bool :=
  b <- gets fr_board ;;
  if negb (GamePhase_eqb (phase b) ACTION_PHASE) then ret false
  else
    a <- gets fr_self ;;
    p <- gets fr_player ;;
    if negb (Hand_contains (hand p) (discard_card a)) then ret false
    else ret true.

Definition DiscardCardAction__execute : M (Frame DiscardCardAction) unit :=
  a <- gets fr_self ;;
  card <- pop_from_hand (discard_card a) ;;
  b <- gets fr_board ;;
  modify (set_board (with_stack b (Stack_put (stack b) card))).

Definition DiscardCardAction__target_phase : M (Frame DiscardCardAction) GamePhase :=
  p <- gets fr_player ;;
  if Hand_is_empty (hand p) then ret NO_CARDS_END_TURN_PHASE
  else ret END_TURN_PHASE.

(** *** [PutAction] *)

Definition PutAction_get_reward (a : PutAction) : Z := get_total_value (series a).

(** [for card in self.series: if card not in player.hand: return False] *)
Fixpoint holds_all (cs : list Card) : M (Frame PutAction) bool :=
  match cs with
  | [] => ret true
  | c :: rest =>
      p <- gets fr_player ;;
      if negb (Hand_contains (hand p) c) then ret false
      else holds_all rest
  end.

Definition PutAction_validate (verbose : bool) : M (Frame PutAction) bool :=
  b <- gets fr_board ;;
  if negb (phase_in (phase b) [ACTION_PHASE; PLAY_JOKER_PHASE]) then ret false
  else
    a <- gets fr_self ;;
    if GamePhase_eqb (phase b) PLAY_JOKER_PHASE
       && negb (any (map is_joker (cards (series a))))
    then ret false
    else
      p <- gets fr_player ;;
      if (num_cards p <=? len (cards (series a)) + 1)
         && negb (player_may_clear_hand b p a)
      then ret false
      else
        held <- holds_all (cards (series a)) ;;
        if negb held then ret false
        else if negb (is_valid (series a)) then ret false
        else ret true.

(** [for card in self.series: player.hand.pop(card)] *)
Fixpoint pop_all (cs : list Card) : M (Frame PutAction) unit :=
  match cs with
  | [] => ret tt
  | c :: rest => pop_from_hand c ;; pop_all rest
  end.

Definition PutAction__execute : M (Frame PutAction) unit :=
  a <- gets fr_self ;;
  pop_all (cards (series a)) ;;
  team_series <- get_series_for_player ;;
  append_series team_series (series a).

Definition PutAction__target_phase : M (Frame PutAction) GamePhase :=
  p <- gets fr_player ;;
  if Hand_is_empty (hand p) then ret NO_CARDS_PHASE
  else ret ACTION_PHASE.


(** *** [Game] *)

Inductive Action : Type :=
| Discard (a : DiscardCardAction)
| Put (a : PutAction)
| OtherAction (name : string).

(** Modelled from the spec: [base/game_state.py] is missing.  The view
    handed to a player holds what [get_state] passes to its constructor. *)
Record GameState : Type := mkGameState {
  gs_board : option Board;
  gs_players : option (list Player);
  gs_current_player_index : option Z;
  gs_current_team_index : option Z;
  gs_red_team_score : Z;
  gs_blue_team_score : Z
}.

(** Modelled from the spec: [base/game_history.py] is missing.  The history
    is an append-only sequence of (state snapshot, action or none) pairs. *)
Record Snapshot : Type := mkSnapshot {
  snap_players : option (list Player);
  snap_teams : option (list Team);
  snap_current_player_index : option Z;
  snap_current_team_index : option Z;
  snap_board : option Board
}.

Definition GameHistory : Type := list (Snapshot * option Action).

Record Game : Type := mkGame {
  players : option (list Player);
  teams : option (list Team);
  current_player_index : option Z;
  current_team_index : option Z;
  board : option Board;
  keep_history : bool;
  history : GameHistory;
  initialized : bool
}.

(** [Game(keep_history)] *)
Definition Game_init (kh : bool) : Game :=
  {| players := None; teams := None; current_player_index := None;
     current_team_index := None; board := None; keep_history := kh;
     history := []; initialized := false |}.

Definition set_players (v : option (list Player)) (g : Game) : Game :=
  mkGame v (teams g) (current_player_index g) (current_team_index g) (board g)
         (keep_history g) (history g) (initialized g).

Definition set_teams (v : option (list Team)) (g : Game) : Game :=
  mkGame (players g) v (current_player_index g) (current_team_index g) (board g)
         (keep_history g) (history g) (initialized g).

Definition set_current_player_index (v : option Z) (g : Game) : Game :=
  mkGame (players g) (teams g) v (current_team_index g) (board g)
         (keep_history g) (history g) (initialized g).

Definition set_current_team_index (v : option Z) (g : Game) : Game :=
  mkGame (players g) (teams g) (current_player_index g) v (board g)
         (keep_history g) (history g) (initialized g).

Definition set_game_board (v : option Board) (g : Game) : Game :=
  mkGame (players g) (teams g) (current_player_index g) (current_team_index g) v
         (keep_history g) (history g) (initialized g).

Definition set_history (v : GameHistory) (g : Game) : Game :=
  mkGame (players g) (teams g) (current_player_index g) (current_team_index g)
         (board g) (keep_history g) v (initialized g).

Definition set_initialized (v : bool) (g : Game) : Game :=
  mkGame (players g) (teams g) (current_player_index g) (current_team_index g)
         (board g) (keep_history g) (history g) v.

(** Modelled from the spec: [base/constants.py] is missing.  The game has
    four players in two teams; hand and pile sizes and the seats played by
    the computer are left open. *)
Definition NUM_PLAYERS : Z := 4.
Definition NUM_TEAMS : Z := 2.
Variable NUM_CARDS_IN_STARTING_HAND : Z.
Variable NUM_CARDS_IN_PILE : Z.
Variable AI_PLAYER_INDEXES : list Z.

(** The deck that [DoubleDeck(with_jokers=True)] holds after [shuffle()]. *)
Variable shuffled_double_deck : Deck.

(** The objects a player reaches through the [GameState] it is handed: the
    board, the players and, through them, the teams. *)
Record Table : Type := mkTable {
  tb_board : Board;
  tb_players : list Player;
  tb_teams : list Team
}.

(** [Player.play_single_step(state, verbose)]: the player decides on an
    action and plays it; its code is not part of the sources. *)
Variable Player_play_single_step : Player -> GameState -> bool -> M Table (option Action).

(** [l[i]] where [l] and [i] may be [None]. *)
Definition subscript {A} (l : option (list A)) (i : option Z) : M Game A :=
  match l, i with
  | Some l', Some i' =>
      match getitem l' i' with
      | Some x => ret x
      | None => raise IndexError
      end
  | _, _ => raise TypeError
  end.

(** [for x in l] where [l] may be [None]. *)
Definition iterable {A} (l : option (list A)) : M Game (list A) :=
  match l with
  | Some l' => ret l'
  | None => raise TypeError
  end.

(** A method call on an object that may be [None]. *)
Definition receiver {A} (o : option A) : M Game A :=
  match o with
  | Some x => ret x
  | None => raise AttributeError
  end.

Definition list_set {A} (l : list A) (n : nat) (x : A) : list A :=
  firstn n l ++ match skipn n l with
                | [] => []
                | _ :: rest => x :: rest
                end.

(** The position of a team in [self.teams]. *)
Definition team_slot (c : TeamColor) : Z :=
  match c with RED => 0 | BLUE => 1 end.

(** [player.team]: following the player's reference to its team. *)
Definition Player_team (p : Player) : M Game Team :=
  c <- receiver (team p) ;;
  ts <- gets teams ;;
  match ts with
  | Some l => receiver (getitem l (team_slot c))
  | None => raise AttributeError
  end.

Definition current_player : M Game Player :=
  ps <- gets players ;;
  i <- gets current_player_index ;;
  subscript ps i.

Definition current_team : M Game Team :=
  ts <- gets teams ;;
  i <- gets current_team_index ;;
  subscript ts i.

Definition red_team : M Game (option Team) :=
  ts <- gets teams ;;
  match ts with
  | Some ((_ :: _) as l) => t <- subscript (Some l) (Some 0) ;; ret (Some t)
  | _ => ret None
  end.

Definition blue_team : M Game (option Team) :=
  ts <- gets teams ;;
  match ts with
  | Some ((_ :: _) as l) => t <- subscript (Some l) (Some 1) ;; ret (Some t)
  | _ => ret None
  end.

Definition _get_team_score (t : option Team) (team_series : list CardSeries)
    (opponent_cards : list Card) : M Game Z :=
  let total_score := 0 in
  let total_score := fold_left (fun acc s => acc + get_total_value s) team_series total_score in
  let total_score := fold_left (fun acc c => acc + get_score c) opponent_cards total_score in
  t' <- receiver t ;;
  if has_grabbed_pile t' then ret (total_score + 100) else ret total_score.

(** [for player in team.players: opponent_cards.extend(player.hand.get_raw_cards())] *)
Fixpoint opponent_hands (refs : list Z) (acc : list Card) : M Game (list Card) :=
  match refs with
  | [] => ret acc
  | r :: rest =>
      ps <- gets players ;;
      p <- subscript ps (Some r) ;;
      opponent_hands rest (acc ++ hand p)
  end.

Definition get_red_team_score (include_opponent_cards : bool) : M Game Z :=
  opponent_cards <-
    (if include_opponent_cards
     then bt <- blue_team ;; t <- receiver bt ;; opponent_hands (team_players t) []
     else ret []) ;;
  rt <- red_team ;;
  b <- attr board ;;
  _get_team_score rt (red_team_series b) opponent_cards.

Definition get_blue_team_score (include_opponent_cards : bool) : M Game Z :=
  opponent_cards <-
    (if include_opponent_cards
     then rt <- red_team ;; t <- receiver rt ;; opponent_hands (team_players t) []
     else ret []) ;;
  bt <- blue_team ;;
  b <- attr board ;;
  _get_team_score bt (blue_team_series b) opponent_cards.

Definition get_state : M Game GameState :=
  b <- gets board ;;
  ps <- gets players ;;
  i <- gets current_player_index ;;
  j <- gets current_team_index ;;
  red <- get_red_team_score false ;;
  blue <- get_blue_team_score false ;;
  ret (mkGameState b ps i j red blue).

(** The loop of [is_finished] over the players. *)
Fixpoint some_player_finished (ps : list Player) : M Game bool :=
  match ps with
  | [] => ret false
  | p :: rest =>
      if Hand_is_empty (hand p) then
        t <- Player_team p ;;
        if has_grabbed_pile t then
          b <- attr board ;;
          if team_has_pure b t then ret true
          else some_player_finished rest
        else some_player_finished rest
      else some_player_finished rest
  end.

Definition is_finished : M Game bool :=
  b <- attr board ;;
  if Deck_is_empty (deck b) && (num_piles_remaining b =? 0) then ret true
  else
    ps <- gets players ;;
    ps' <- iterable ps ;;
    some_player_finished ps'.

(** [x += 1] and [x %= n] on an index that may be [None]. *)
Definition increment (i : option Z) : M Game Z :=
  match i with
  | Some i' => ret (i' + 1)
  | None => raise TypeError
  end.

Definition modulo (i : option Z) (n : Z) : M Game Z :=
  match i with
  | Some i' => ret (i' mod n)
  | None => raise TypeError
  end.

Definition _next_player_turn : M Game unit :=
  i <- gets current_player_index ;;
  i' <- increment i ;;
  modify (set_current_player_index (Some i')) ;;
  i <- gets current_player_index ;;
  i' <- modulo i NUM_PLAYERS ;;
  modify (set_current_player_index (Some i')) ;;
  j <- gets current_team_index ;;
  j' <- increment j ;;
  modify (set_current_team_index (Some j')) ;;
  j <- gets current_team_index ;;
  j' <- modulo j NUM_TEAMS ;;
  modify (set_current_team_index (Some j')) ;;
  b <- attr board ;;
  modify (set_game_board (Some (set_phase b DRAW_PHASE))).

(** Modelled from the spec: [self.history.add(self, action)] appends a
    snapshot of the game and the action. *)
Definition history_add (action : option Action) : M Game unit :=
  modify (fun g =>
    set_history (history g ++
      [(mkSnapshot (players g) (teams g) (current_player_index g)
                   (current_team_index g) (board g), action)]) g).

(** The call [player.play_single_step(state, verbose=verbose)]: the player
    works on the board, the players and the teams of this game. *)
Definition call_player (p : Player) (st : GameState) (verbose : bool) : M Game (option Action) :=
  fun g =>
    match board g, players g, teams g with
    | Some b, Some ps, Some ts =>
        let (r, t) := Player_play_single_step p st verbose (mkTable b ps ts) in
        (r, set_teams (Some (tb_teams t))
              (set_players (Some (tb_players t))
                 (set_game_board (Some (tb_board t)) g)))
    | _, _, _ => (Raised AttributeError, g)
    end.

(** Line 93 of [game.py]: the current player is asked for its action. *)
Definition ask_current_player (verbose : bool) : M Game (option Action) :=
  p <- current_player ;;
  st <- get_state ;;
  call_player p st verbose.

Definition play_single_step (verbose : bool) : M Game unit :=
  init <- gets initialized ;;
  if negb init then raise (Exception "Game not initialized")
  else
    finished <- is_finished ;;
    if negb finished then
      action <- ask_current_player verbose ;;
      kh <- gets keep_history ;;
      (if kh then history_add action else ret tt) ;;
      b <- attr board ;;
      if GamePhase_eqb (phase b) END_TURN_PHASE then _next_player_turn
      else ret tt
    else ret tt.

(** [self.players[i].set_team(team)] *)
Definition assign_team (i : Z) (c : TeamColor) : M Game unit :=
  ps <- gets players ;;
  p <- subscript ps (Some i) ;;
  l <- iterable ps ;;
  modify (set_players (Some (list_set l (Z.to_nat i) (set_team p c)))).

(** [AIPlayer(i) if i in Constants.AI_PLAYER_INDEXES else HumanPlayer(i)].
    Modelled from the spec: the constructors are missing; a new player
    holds no cards and belongs to no team yet. *)
Definition new_player (i : Z) : Player :=
  if existsb (Z.eqb i) AI_PLAYER_INDEXES
  then mkPlayer AIPlayer i [] None
  else mkPlayer HumanPlayer i [] None.

Definition _initialize_players : M Game unit :=
  modify (set_players (Some (map new_player (range NUM_PLAYERS)))) ;;
  ps <- gets players ;;
  _ <- subscript ps (Some 0) ;;
  _ <- subscript ps (Some 2) ;;
  let team_red := mkTeam [0; 2] RED false in
  assign_team 0 RED ;;
  assign_team 2 RED ;;
  ps <- gets players ;;
  _ <- subscript ps (Some 1) ;;
  _ <- subscript ps (Some 3) ;;
  let team_blue := mkTeam [1; 3] BLUE false in
  assign_team 1 BLUE ;;
  assign_team 3 BLUE ;;
  modify (set_teams (Some [team_red; team_blue])).

Definition _create_deck : M Game Deck := ret shuffled_double_deck.

(** [[Hand(deck.deal_n(n)) for _ in range(k)]]: the hands and the deck
    that is left. *)
Fixpoint deal_hands (k : nat) (d : Deck) : option (list Hand * Deck) :=
  match k with
  | O => Some ([], d)
  | S k' =>
      match Deck_deal_n d NUM_CARDS_IN_STARTING_HAND with
      | Some (h, d') =>
          match deal_hands k' d' with
          | Some (hs, d'') => Some (h :: hs, d'')
          | None => None
          end
      | None => None
      end
  end.

(** The deck is a local object of [initialize_game]; it is passed on. *)
Definition _deal_hands (d : Deck) : M Game Deck :=
  ps <- gets players ;;
  l <- iterable ps ;;
  match deal_hands (List.length l) d with
  | Some (hands, d') =>
      modify (set_players (Some (map (fun ph => with_hand (fst ph) (snd ph)) (combine l hands)))) ;;
      ret d'
  | None => raise IndexError
  end.

Definition _initialize_board (d : Deck) : M Game unit :=
  match Deck_deal_n d NUM_CARDS_IN_PILE with
  | Some (left_pile_cards, d') =>
      match Deck_deal_n d' NUM_CARDS_IN_PILE with
      | Some (right_pile_cards, d'') =>
          modify (set_game_board (Some (Board_init d'' left_pile_cards right_pile_cards)))
      | None => raise IndexError
      end
  | None => raise IndexError
  end.

Definition _initialize_board_stack : M Game unit :=
  b <- attr board ;;
  match Deck_deal (deck b) with
  | Some (card, d') =>
      modify (set_game_board (Some (with_deck b d'))) ;;
      b <- attr board ;;
      modify (set_game_board (Some (with_stack b (Stack_put (stack b) card))))
  | None => raise IndexError
  end.

Definition initialize_game : M Game unit :=
  init <- gets initialized ;;
  if negb init then
    modify (set_current_player_index (Some 0)) ;;
    modify (set_current_team_index (Some 0)) ;;
    _initialize_players ;;
    d <- _create_deck ;;
    d <- _deal_hands d ;;
    _initialize_board d ;;
    _initialize_board_stack ;;
    b <- attr board ;;
    modify (set_game_board (Some (set_phase b DRAW_PHASE))) ;;
    modify (set_initialized true) ;;
    kh <- gets keep_history ;;
    if kh then history_add None else ret tt
  else ret tt.

(** *** Where the cards are *)

Definition board_cards (b : Board) : list Card :=
  deck b ++ left_pile b ++ right_pile b ++ stack b
  ++ List.concat (map cards (red_team_series b))
  ++ List.concat (map cards (blue_team_series b)).

Definition hands_cards (ps : list Player) : list Card := List.concat (map hand ps).

(** The cards on the board and in the players' hands. *)
Definition all_cards (g : Game) : list Card :=
  match board g with Some b => board_cards b | None => [] end
  ++ match players g with Some ps => hands_cards ps | None => [] end.

(** The frame of an action played by the player at position [i], and the
    game after the action has worked on that frame. *)
Definition seat {A} (a : A) (i : nat) (g : Game) : option (Frame A) :=
  match players g, board g with
  | Some ps, Some b =>
      match nth_error ps i with
      | Some p => Some (mkFrame a p b)
      | None => None
      end
  | _, _ => None
  end.

Definition unseat {A} (f : Frame A) (i : nat) (g : Game) : Game :=
  set_game_board (Some (fr_board f))
    (set_players (option_map (fun ps => list_set ps i (fr_player f)) (players g)) g).

(** One completed move of the game as far as the sources define it: a
    validated discard or put whose execution returns, a change of phase,
    or the passing of the turn.  The actions that draw a card or pick up a
    pile are not part of the sources, and an execution that raises is no
    move of this relation. *)
Inductive step : Game -> Game -> Prop :=
| step_discard : forall g i a v f f',
    seat a i g = Some f ->
    DiscardCardAction_validate v f = (Returned true, f) ->
    DiscardCardAction__execute f = (Returned tt, f') ->
    step g (unseat f' i g)
| step_put : forall g i a v f f',
    seat a i g = Some f ->
    PutAction_validate v f = (Returned true, f) ->
    PutAction__execute f = (Returned tt, f') ->
    step g (unseat f' i g)
| step_set_phase : forall g b ph,
    board g = Some b ->
    step g (set_game_board (Some (set_phase b ph)) g)
| step_next_player_turn : forall g g',
    _next_player_turn g = (Returned tt, g') ->
    step g g'.

(** The states a dealt game gets to by such moves. *)
Inductive played : Game -> Prop :=
| played_initial : forall kh g,
    initialize_game (Game_init kh) = (Returned tt, g) ->
    played g
| played_step : forall g g',
    played g -> step g g' -> played g'.

(** [player.team] for a player of game [g]. *)
Definition team_at (g : Game) (c : TeamColor) : option Team :=
  match teams g with
  | Some l => getitem l (team_slot c)
  | None => None
  end.

(** *** A sample player and sample games *)

(** Modelled from the spec: [Player.play_single_step] and [Action.execute]
    are missing.  This player discards the first card of its hand: the
    action is validated against the board and the player, if valid it is
    executed, and the phase it reports is set on the board. *)
Definition discard_first_card (p : Player) (st : GameState) (verbose : bool)
    : M Table (option Action) :=
  fun t =>
    match hand p with
    | [] => (Returned None, t)
    | c :: _ =>
        match DiscardCardAction_validate verbose
                (mkFrame (DiscardCardAction_init c) p (tb_board t)) with
        | (Returned true, f) =>
            match DiscardCardAction__execute f with
            | (Returned _, f') =>
                match DiscardCardAction__target_phase f' with
                | (Returned ph, f'') =>
                    (Returned (Some (Discard (fr_self f''))),
                     mkTable (set_phase (fr_board f'') ph)
                             (list_set (tb_players t) (Z.to_nat (identifier p)) (fr_player f''))
                             (tb_teams t))
                | (Raised e, _) => (Raised e, t)
                end
            | (Raised e, _) => (Raised e, t)
            end
        | (Returned false, _) => (Returned None, t)
        | (Raised e, _) => (Raised e, t)
        end
    end.

Definition five_of_hearts : Card := mkCard 5 1 false false 5.
Definition five_of_spades : Card := mkCard 5 2 false false 5.
Definition five_of_clubs : Card := mkCard 5 3 false false 5.
Definition king_of_hearts : Card := mkCard 13 1 false false 10.
Definition queen_of_clubs : Card := mkCard 12 3 false false 10.
Definition nine_of_clubs : Card := mkCard 9 3 false false 10.
Definition two_of_clubs : Card := mkCard 2 3 false true 20.
Definition the_joker : Card := mkCard 0 0 true false 50.

Definition sample_teams : list Team :=
  [mkTeam [0; 2] RED false; mkTeam [1; 3] BLUE false].

Definition sample_board (ph : GamePhase) : Board :=
  {| deck := [nine_of_clubs; two_of_clubs]; left_pile := [the_joker];
     right_pile := [queen_of_clubs]; stack := [five_of_clubs];
     red_team_series := []; blue_team_series := []; phase := ph |}.

(** A game in the action phase of the first player, who holds the cards
    [first_hand]. *)
Definition sample_game (first_hand : Hand) : Game :=
  {| players := Some [mkPlayer HumanPlayer 0 first_hand (Some RED);
                      mkPlayer HumanPlayer 1 [five_of_spades] (Some BLUE);
                      mkPlayer HumanPlayer 2 [king_of_hearts] (Some RED);
                      mkPlayer HumanPlayer 3 [king_of_hearts] (Some BLUE)];
     teams := Some sample_teams;
     current_player_index := Some 0;
     current_team_index := Some 0;
     board := Some (sample_board ACTION_PHASE);
     keep_history := true;
     history := [];
     initialized := true |}.

(** Sample collaborators: a series is worth the sum of its cards' values
    and is valid when it has at least three cards whose natural cards share
    one rank; a pile remains while it holds cards; no hand may be cleared. *)
Definition sample_total_value (s : CardSeries) : Z :=
  fold_right Z.add 0 (map get_score (cards s)).

Definition natural_ranks (s : CardSeries) : list Z :=
  map rank (filter (fun c => negb (joker c) && negb (wildcard c)) (cards s)).

Definition sample_is_valid (s : CardSeries) : bool :=
  (3 <=? len (cards s))
  && match natural_ranks s with
     | [] => true
     | r :: rest => forallb (Z.eqb r) rest
     end.

Definition sample_piles_remaining (b : Board) : Z :=
  (if Hand_is_empty (left_pile b) then 0 else 1)
  + (if Hand_is_empty (right_pile b) then 0 else 1).

Definition never_clear_hand (b : Board) (p : Player) (a : PutAction) : bool := false.

(** *** Auxiliary notions of the proofs *)

(** What one round of the loop of [is_finished] tests for a player. *)
Definition player_finished (g : Game) (b : Board) (p : Player) : bool :=
  Hand_is_empty (hand p)
  && match team p with
     | Some c =>
         match team_at g c with
         | Some t => has_grabbed_pile t && team_has_pure b t
         | None => false
         end
     | None => false
     end.

(** The cards an action can reach. *)
Definition frame_cards {A} (f : Frame A) : list Card :=
  hand (fr_player f) ++ board_cards (fr_board f).

(** The four players of a new game, each in its team. *)
Definition seated_players : list Player :=
  [set_team (new_player 0) RED; set_team (new_player 1) BLUE;
   set_team (new_player 2) RED; set_team (new_player 3) BLUE].

(** *** More sample games *)

(** A deck of twenty-four cards for hands of five and piles of one. *)
Definition sample_deck : Deck :=
  [five_of_hearts; five_of_spades; five_of_clubs; king_of_hearts; queen_of_clubs]
  ++ repeat nine_of_clubs 15
  ++ [the_joker; two_of_clubs; king_of_hearts; queen_of_clubs].

(** The game [initialize_game] makes of that deck. *)
Definition sample_start : Game :=
  {| players := Some [mkPlayer HumanPlayer 0
                        [five_of_hearts; five_of_spades; five_of_clubs;
                         king_of_hearts; queen_of_clubs] (Some RED);
                      mkPlayer HumanPlayer 1 (repeat nine_of_clubs 5) (Some BLUE);
                      mkPlayer HumanPlayer 2 (repeat nine_of_clubs 5) (Some RED);
                      mkPlayer HumanPlayer 3 (repeat nine_of_clubs 5) (Some BLUE)];
     teams := Some sample_teams;
     current_player_index := Some 0;
     current_team_index := Some 0;
     board := Some {| deck := [queen_of_clubs]; left_pile := [the_joker];
                      right_pile := [two_of_clubs]; stack := [king_of_hearts];
                      red_team_series := []; blue_team_series := [];
                      phase := DRAW_PHASE |};
     keep_history := false;
     history := [];
     initialized := true |}.

(** The game with its board in phase [ph]. *)
Definition in_phase (ph : GamePhase) (g : Game) : Game :=
  match board g with
  | Some b => set_game_board (Some (set_phase b ph)) g
  | None => g
  end.

(** The game after the player at position [i] has executed an action. *)
Definition after_put (a : PutAction) (i : nat) (g : Game) : Game :=
  match seat a i g with
  | Some f => unseat (snd (PutAction__execute f)) i g
  | None => g
  end.

Definition after_discard (a : DiscardCardAction) (i : nat) (g : Game) : Game :=
  match seat a i g with
  | Some f => unseat (snd (DiscardCardAction__execute f)) i g
  | None => g
  end.

Definition three_fives : PutAction :=
  PutAction_init [five_of_hearts; five_of_spades; five_of_clubs].

(** In its action phase the first player has laid down three fives and
    discarded a king. *)
Definition sample_turn : Game :=
  after_discard (DiscardCardAction_init king_of_hearts) 0
    (after_put three_fives 0 (in_phase ACTION_PHASE sample_start)).

(** The dealt sample game in the action phase of its first player, and a
    put that names the five of hearts twice. *)
Definition sample_action_phase : Game := in_phase ACTION_PHASE sample_start.

Definition five_of_hearts_twice : PutAction :=
  PutAction_init [five_of_hearts; five_of_hearts; five_of_spades].

(** A player about to lay down all the cards it holds. *)
Definition last_three_cards : Frame PutAction :=
  mkFrame three_fives
          (mkPlayer HumanPlayer 0 [five_of_hearts; five_of_spades; five_of_clubs] (Some RED))
          (sample_board ACTION_PHASE).

(** A player laying down three of its five cards. *)
Definition three_of_five_cards (a : PutAction) : Frame PutAction :=
  mkFrame a
          (mkPlayer HumanPlayer 0
             [five_of_hearts; five_of_spades; five_of_clubs; two_of_clubs; king_of_hearts]
             (Some RED))
          (sample_board ACTION_PHASE).

(** A game that is over: the first player is out of cards, its team has
    grabbed a pile and has a pure series on the board. *)
Definition finished_game : Game :=
  {| players := Some [mkPlayer HumanPlayer 0 [] (Some RED);
                      mkPlayer HumanPlayer 1 [five_of_spades] (Some BLUE);
                      mkPlayer HumanPlayer 2 [king_of_hearts] (Some RED);
                      mkPlayer HumanPlayer 3 [king_of_hearts] (Some BLUE)];
     teams := Some [mkTeam [0; 2] RED true; mkTeam [1; 3] BLUE false];
     current_player_index := Some 1;
     current_team_index := Some 1;
     board := Some {| deck := [nine_of_clubs]; left_pile := [];
                      right_pile := [queen_of_clubs]; stack := [five_of_clubs];
                      red_team_series := [mkSeries [five_of_hearts; five_of_spades; five_of_hearts]];
                      blue_team_series := []; phase := DRAW_PHASE |};
     keep_history := true;
     history := [];
     initialized := true |}.

(** *** The rest of [Game] *)

(** [reset_game(initialize, clear_history)].  Modelled from the spec:
    [history.clear()] empties the history. *)
Definition reset_game (initialize clear_history : bool) : M Game unit :=
  modify (set_players None) ;;
  modify (set_teams None) ;;
  modify (set_current_player_index None) ;;
  modify (set_current_team_index None) ;;
  modify (set_game_board None) ;;
  (if clear_history then modify (set_history []) else ret tt) ;;
  modify (set_initialized false) ;;
  if initialize then initialize_game else ret tt.

(** [n] calls of [_next_player_turn] in a row. *)
Fixpoint turns (n : nat) : M Game unit :=
  match n with
  | O => ret tt
  | S n' => _next_player_turn ;; turns n'
  end.

(** The sum a scoring loop adds to its accumulator. *)
Definition series_total (l : list CardSeries) : Z :=
  fold_right Z.add 0 (map get_total_value l).

Definition cards_total (l : list Card) : Z :=
  fold_right Z.add 0 (map get_score l).

(** The cards held by the players a team refers to. *)
Definition hands_of (ps : list Player) (refs : list Z) : list Card :=
  flat_map (fun r => match getitem ps r with
                     | Some p => hand p
                     | None => []
                     end) refs.

(** How many copies of [c] a list of cards holds. *)
Definition copies (c : Card) (l : list Card) : nat :=
  List.length (filter (Card_eqb c) l).

(** The turn counters agree: the player index is one of the four seats and
    the team index is its parity. *)
Definition in_step (g : Game) : Prop :=
  exists i, current_player_index g = Some i
            /\ 0 <= i < NUM_PLAYERS
            /\ current_team_index g = Some (i mod NUM_TEAMS).

(** Everything [initialize_game] deals from a deck: the hands, the two
    piles, the first card of the stack and the deck that is left. *)
Definition deal_all (d : Deck) : option (list Hand * Stack * Stack * Card * Deck) :=
  match deal_hands (List.length seated_players) d with
  | Some (hs, d0) =>
      match Deck_deal_n d0 NUM_CARDS_IN_PILE with
      | Some (lp, d1) =>
          match Deck_deal_n d1 NUM_CARDS_IN_PILE with
          | Some (rp, d2) =>
              match Deck_deal d2 with
              | Some (c, d3) => Some (hs, lp, rp, c, d3)
              | None => None
              end
          | None => None
          end
      | None => None
      end
  | None => None
  end.

(** The game [initialize_game] makes of [g] and of what was dealt. *)
Definition dealt_game (g : Game) (hs : list Hand) (lp rp : Stack) (c : Card) (d : Deck) : Game :=
  let ps := Some (map (fun ph => with_hand (fst ph) (snd ph)) (combine seated_players hs)) in
  let ts := Some [mkTeam [0; 2] RED false; mkTeam [1; 3] BLUE false] in
  let b := Some {| deck := d; left_pile := lp; right_pile := rp; stack := [c];
                   red_team_series := []; blue_team_series := [];
                   phase := DRAW_PHASE |} in
  mkGame ps ts (Some 0) (Some 0) b (keep_history g)
         (if keep_history g
          then history g ++ [(mkSnapshot ps ts (Some 0) (Some 0) b, None)]
          else history g)
         true.

(** The part of a game a step can touch only through [_next_player_turn]
    and [history_add]. *)
Definition same_counters (g g' : Game) : Prop :=
  current_player_index g' = current_player_index g
  /\ current_team_index g' = current_team_index g
  /\ keep_history g' = keep_history g
  /\ initialized g' = initialized g.

(** *** [GameRunner] *)

(** Modelled from the spec: [Constants.GAME_ID_LENGTH] is missing. *)
Variable GAME_ID_LENGTH : Z.

(** A Python [dict] with string keys: the keys are unique, a new key goes
    to the end, an assignment to a key that is present replaces its value
    in place. *)
Definition Dict (V : Type) : Type := list (string * V).

Fixpoint dict_get {V} (d : Dict V) (k : string) : option V :=
  match d with
  | [] => None
  | (k', v) :: d' => if String.eqb k k' then Some v else dict_get d' k
  end.

Fixpoint dict_set {V} (d : Dict V) (k : string) (v : V) : Dict V :=
  match d with
  | [] => [(k, v)]
  | (k', v') :: d' =>
      if String.eqb k k' then (k, v) :: d' else (k', v') :: dict_set d' k v
  end.

Definition dict_del {V} (d : Dict V) (k : string) : Dict V :=
  filter (fun kv => negb (String.eqb k (fst kv))) d.

Definition dict_contains {V} (d : Dict V) (k : string) : bool :=
  match dict_get d k with
  | Some _ => true
  | None => false
  end.

Record GameRunner : Type := mkRunner { running_games : Dict Game }.

(** [GameRunner()] *)
Definition GameRunner_init : GameRunner := {| running_games := [] |}.

(** [string.ascii_lowercase] *)
Definition ascii_lowercase : list ascii :=
  list_ascii_of_string "abcdefghijklmnopqrstuvwxyz".

(** [random.choice(seq)] with the random index it draws given by [r]; an
    empty sequence raises [IndexError] (here: [None]). *)
Definition choice {A} (l : list A) (r : nat) : option A :=
  match l with
  | [] => None
  | _ => nth_error l (r mod List.length l)
  end.

(** [generate_new_game_id()]; [draws k] is the random number behind the
    [k]-th call of [random.choice]. *)
Definition generate_new_game_id (draws : nat -> nat) : string :=
  string_of_list_ascii
    (flat_map (fun k => match choice ascii_lowercase (draws (Z.to_nat k)) with
                        | Some a => [a]
                        | None => []
                        end)
              (range GAME_ID_LENGTH)).

(** [start_game()]: the new game is [Game()], which keeps its history.  The
    runner stores the game object; the id is the reference to it. *)
Definition start_game (draws : nat -> nat) : M GameRunner (string * Game) :=
  let game_id := generate_new_game_id draws in
  let game := Game_init true in
  modify (fun r => mkRunner (dict_set (running_games r) game_id game)) ;;
  ret (game_id, game).

Definition end_game (game_id : string) : M GameRunner unit :=
  d <- gets running_games ;;
  if dict_contains d game_id
  then modify (fun r => mkRunner (dict_del (running_games r) game_id))
  else ret tt.

Definition get_game (game_id : string) : M GameRunner (option Game) :=
  d <- gets running_games ;;
  ret (dict_get d game_id).

(** ** Properties *)

(** *** Computations that only read *)

Lemma ReadOnly_state {S A} (m : M S A) :
  ReadOnly m -> forall s, snd (m s) = s.
Proof.
  induction 1 as [A a | A f | A f | A e | A B m k Hm IHm Hk IHk]; intro s.
  - reflexivity.
  - reflexivity.
  - unfold attr. destruct (f s); reflexivity.
  - reflexivity.
  - unfold bind. specialize (IHm s).
    destruct (m s) as [[a | e] s']; simpl in IHm; subst s'.
    + apply IHk.
    + reflexivity.
Qed.

Lemma ReadOnly_run {S A} (m : M S A) (s : S) :
  ReadOnly m -> m s = (fst (m s), s).
Proof.
  intro H. rewrite <- (ReadOnly_state m H s) at 3.
  destruct (m s); reflexivity.
Qed.

Ltac read_only :=
  repeat first
    [ apply RO_ret | apply RO_gets | apply RO_attr | apply RO_raise
    | apply RO_bind
    | intro
    | match goal with
      | |- ReadOnly (if ?c then _ else _) => destruct c
      | |- ReadOnly (match ?x with _ => _ end) => destruct x
      end
    | solve [auto with readonly] ].

Lemma holds_all_ReadOnly (cs : list Card) : ReadOnly (holds_all cs).
Proof.
  induction cs as [| c rest IH]; simpl.
  - apply RO_ret.
  - apply RO_bind; [apply RO_gets |].
    intro p. destruct (negb (Hand_contains (hand p) c)); [apply RO_ret | exact IH].
Qed.

Lemma DiscardCardAction_validate_ReadOnly (verbose : bool) :
  ReadOnly (DiscardCardAction_validate verbose).
Proof. unfold DiscardCardAction_validate. read_only. Qed.

Lemma PutAction_validate_ReadOnly (verbose : bool) :
  ReadOnly (PutAction_validate verbose).
Proof.
  unfold PutAction_validate.
  apply RO_bind; [apply RO_gets | intro b].
  destruct (negb (phase_in (phase b) [ACTION_PHASE; PLAY_JOKER_PHASE])); [apply RO_ret |].
  apply RO_bind; [apply RO_gets | intro a].
  destruct (GamePhase_eqb (phase b) PLAY_JOKER_PHASE
            && negb (any (map is_joker (cards (series a))))); [apply RO_ret |].
  apply RO_bind; [apply RO_gets | intro p].
  destruct ((num_cards p <=? len (cards (series a)) + 1)
            && negb (player_may_clear_hand b p a)); [apply RO_ret |].
  apply RO_bind; [apply holds_all_ReadOnly | intro held].
  destruct (negb held); [apply RO_ret |].
  destruct (negb (is_valid (series a))); apply RO_ret.
Qed.

(** What [holds_all] computes: every card of the list is held. *)
Lemma holds_all_run (cs : list Card) (f : Frame PutAction) :
  holds_all cs f = (Returned (forallb (Hand_contains (hand (fr_player f))) cs), f).
Proof.
  induction cs as [| c rest IH]; simpl.
  - reflexivity.
  - unfold bind, gets. destruct (Hand_contains (hand (fr_player f)) c); simpl.
    + exact IH.
    + reflexivity.
Qed.

(** The value [PutAction.validate] returns, check by check. *)
Lemma PutAction_validate_run (verbose : bool) (f : Frame PutAction) :
  PutAction_validate verbose f =
  (Returned
     (phase_in (phase (fr_board f)) [ACTION_PHASE; PLAY_JOKER_PHASE]
      && negb (GamePhase_eqb (phase (fr_board f)) PLAY_JOKER_PHASE
               && negb (any (map is_joker (cards (series (fr_self f))))))
      && negb ((num_cards (fr_player f) <=? len (cards (series (fr_self f))) + 1)
               && negb (player_may_clear_hand (fr_board f) (fr_player f) (fr_self f)))
      && forallb (Hand_contains (hand (fr_player f))) (cards (series (fr_self f)))
      && is_valid (series (fr_self f))), f).
Proof.
  unfold PutAction_validate, bind, gets, ret.
  destruct (phase_in (phase (fr_board f)) [ACTION_PHASE; PLAY_JOKER_PHASE]); simpl; [| reflexivity].
  destruct (GamePhase_eqb (phase (fr_board f)) PLAY_JOKER_PHASE
            && negb (any (map is_joker (cards (series (fr_self f)))))); simpl; [reflexivity |].
  destruct ((num_cards (fr_player f) <=? len (cards (series (fr_self f))) + 1)
            && negb (player_may_clear_hand (fr_board f) (fr_player f) (fr_self f)));
    simpl; [reflexivity |].
  rewrite holds_all_run.
  destruct (forallb (Hand_contains (hand (fr_player f))) (cards (series (fr_self f)))); simpl;
    [| reflexivity].
  destruct (is_valid (series (fr_self f))); reflexivity.
Qed.

Lemma DiscardCardAction_validate_run (verbose : bool) (f : Frame DiscardCardAction) :
  DiscardCardAction_validate verbose f =
  (Returned (GamePhase_eqb (phase (fr_board f)) ACTION_PHASE
             && Hand_contains (hand (fr_player f)) (discard_card (fr_self f))), f).
Proof.
  unfold DiscardCardAction_validate, bind, gets, ret.
  destruct (GamePhase_eqb (phase (fr_board f)) ACTION_PHASE); simpl; [| reflexivity].
  destruct (Hand_contains (hand (fr_player f)) (discard_card (fr_self f))); reflexivity.
Qed.

Lemma GamePhase_eqb_eq (a b : GamePhase) : GamePhase_eqb a b = true <-> a = b.
Proof. destruct a, b; simpl; split; intro H; try reflexivity; discriminate H. Qed.

(** *** Validation *)

(** C3: a [PutAction] that would leave the player with at most one card
    ([player.num_cards() <= len(series) + 1]) is rejected by [validate]
    unless [board.player_may_clear_hand(player, action)], asked about this
    very action, answers true.  The player, the board and the action are
    left as they were. *)
Theorem PutAction_validate_hand_clear_gate (verbose : bool) (f : Frame PutAction) :
  num_cards (fr_player f) <= len (cards (series (fr_self f))) + 1 ->
  player_may_clear_hand (fr_board f) (fr_player f) (fr_self f) = false ->
  PutAction_validate verbose f = (Returned false, f).
Proof.
  intros Hfew Hdenied.
  rewrite PutAction_validate_run.
  apply Z.leb_le in Hfew.
  rewrite Hfew, Hdenied. simpl.
  rewrite andb_false_r. reflexivity.
Qed.

(** C5: [PutAction.validate] returns false when the phase is neither the
    action phase nor the play-joker phase, and in the play-joker phase when
    no card of the series is a joker; [DiscardCardAction.validate] returns
    false when the phase is not the action phase, and when the card is not
    in the player's hand. *)
Theorem validate_phase_legality :
  (forall verbose (f : Frame PutAction),
      phase (fr_board f) <> ACTION_PHASE ->
      phase (fr_board f) <> PLAY_JOKER_PHASE ->
      PutAction_validate verbose f = (Returned false, f))
  /\ (forall verbose (f : Frame PutAction),
      phase (fr_board f) = PLAY_JOKER_PHASE ->
      Forall (fun c => is_joker c = false) (cards (series (fr_self f))) ->
      PutAction_validate verbose f = (Returned false, f))
  /\ (forall verbose (f : Frame DiscardCardAction),
      phase (fr_board f) <> ACTION_PHASE ->
      DiscardCardAction_validate verbose f = (Returned false, f))
  /\ (forall verbose (f : Frame DiscardCardAction),
      Hand_contains (hand (fr_player f)) (discard_card (fr_self f)) = false ->
      DiscardCardAction_validate verbose f = (Returned false, f)).
Proof.
  repeat split.
  - intros verbose f Ha Hj. rewrite PutAction_validate_run.
    assert (Hin : phase_in (phase (fr_board f)) [ACTION_PHASE; PLAY_JOKER_PHASE] = false).
    { unfold phase_in. simpl.
      destruct (GamePhase_eqb (phase (fr_board f)) ACTION_PHASE) eqn:E1.
      - apply GamePhase_eqb_eq in E1. contradiction.
      - destruct (GamePhase_eqb (phase (fr_board f)) PLAY_JOKER_PHASE) eqn:E2.
        + apply GamePhase_eqb_eq in E2. contradiction.
        + reflexivity. }
    rewrite Hin. reflexivity.
  - intros verbose f Hj Hnone. rewrite PutAction_validate_run.
    assert (Hany : any (map is_joker (cards (series (fr_self f)))) = false).
    { unfold any. induction Hnone as [| c l Hc _ IH]; simpl.
      - reflexivity.
      - rewrite Hc. exact IH. }
    rewrite Hj, Hany. simpl. reflexivity.
  - intros verbose f Ha. rewrite DiscardCardAction_validate_run.
    destruct (GamePhase_eqb (phase (fr_board f)) ACTION_PHASE) eqn:E.
    + apply GamePhase_eqb_eq in E. contradiction.
    + reflexivity.
  - intros verbose f Hout. rewrite DiscardCardAction_validate_run.
    rewrite Hout. rewrite andb_false_r. reflexivity.
Qed.

(** C8: [validate] is a pure predicate.  Whatever it returns, the player
    (and so its hand), the board (deck, piles, stack, series, phase) and
    the action are the same objects with the same contents afterwards, for
    both kinds of action. *)
Theorem validate_is_read_only :
  (forall verbose (f : Frame DiscardCardAction),
      exists r, DiscardCardAction_validate verbose f = (Returned r, f))
  /\ (forall verbose (f : Frame PutAction),
      exists r, PutAction_validate verbose f = (Returned r, f)).
Proof.
  split; intros verbose f.
  - rewrite (ReadOnly_run _ f (DiscardCardAction_validate_ReadOnly verbose)).
    rewrite DiscardCardAction_validate_run. simpl. eexists. reflexivity.
  - rewrite (ReadOnly_run _ f (PutAction_validate_ReadOnly verbose)).
    rewrite PutAction_validate_run. simpl. eexists. reflexivity.
Qed.

(** *** Rewards *)

(** C6: the reward of a [PutAction] is the total value of its series; the
    reward of a [DiscardCardAction] is 1 whatever card it discards. *)
Theorem get_reward_values :
  (forall a : PutAction, PutAction_get_reward a = get_total_value (series a))
  /\ (forall cs : list Card,
        PutAction_get_reward (PutAction_init cs) = get_total_value (mkSeries cs))
  /\ (forall a : DiscardCardAction, DiscardCardAction_get_reward a = 1)
  /\ (forall c c' : Card,
        DiscardCardAction_get_reward (DiscardCardAction_init c)
        = DiscardCardAction_get_reward (DiscardCardAction_init c')).
Proof.
  repeat split; intros; unfold PutAction_get_reward, DiscardCardAction_get_reward; reflexivity.
Qed.

(** *** Termination check *)

Lemma receiver_ReadOnly {A} (o : option A) : ReadOnly (receiver o).
Proof. destruct o; simpl; [apply RO_ret | apply RO_raise]. Qed.

Lemma iterable_ReadOnly {A} (l : option (list A)) : ReadOnly (iterable l).
Proof. destruct l; simpl; [apply RO_ret | apply RO_raise]. Qed.

Lemma subscript_ReadOnly {A} (l : option (list A)) (i : option Z) : ReadOnly (subscript l i).
Proof.
  unfold subscript. destruct l as [l' |]; [| apply RO_raise].
  destruct i as [i' |]; [| apply RO_raise].
  destruct (getitem l' i'); [apply RO_ret | apply RO_raise].
Qed.

Lemma Player_team_ReadOnly (p : Player) : ReadOnly (Player_team p).
Proof.
  unfold Player_team.
  apply RO_bind; [apply receiver_ReadOnly | intro c].
  apply RO_bind; [apply RO_gets | intro ts].
  destruct ts; [apply receiver_ReadOnly | apply RO_raise].
Qed.

Lemma some_player_finished_ReadOnly (ps : list Player) : ReadOnly (some_player_finished ps).
Proof.
  induction ps as [| p rest IH]; simpl.
  - apply RO_ret.
  - destruct (Hand_is_empty (hand p)); [| exact IH].
    apply RO_bind; [apply Player_team_ReadOnly | intro t].
    destruct (has_grabbed_pile t); [| exact IH].
    apply RO_bind; [apply RO_attr | intro b].
    destruct (team_has_pure b t); [apply RO_ret | exact IH].
Qed.

Lemma is_finished_ReadOnly : ReadOnly is_finished.
Proof.
  unfold is_finished.
  apply RO_bind; [apply RO_attr | intro b].
  destruct (Deck_is_empty (deck b) && (num_piles_remaining b =? 0)); [apply RO_ret |].
  apply RO_bind; [apply RO_gets | intro ps].
  apply RO_bind; [apply iterable_ReadOnly | intro ps'].
  apply some_player_finished_ReadOnly.
Qed.

Lemma Player_team_run (g : Game) (p : Player) (c : TeamColor) (t : Team) :
  team p = Some c -> team_at g c = Some t ->
  Player_team p g = (Returned t, g).
Proof.
  intros Hc Ht. unfold Player_team, bind, gets, receiver. rewrite Hc. simpl.
  unfold team_at in Ht. destruct (teams g) as [l |]; [| discriminate Ht].
  rewrite Ht. reflexivity.
Qed.

Lemma some_player_finished_run (g : Game) (b : Board) (ps : list Player) :
  board g = Some b ->
  (forall p, In p ps -> Hand_is_empty (hand p) = true ->
             exists c t, team p = Some c /\ team_at g c = Some t) ->
  some_player_finished ps g = (Returned (existsb (player_finished g b) ps), g).
Proof.
  intros Hb. induction ps as [| p rest IH]; intro Hteams; simpl.
  - reflexivity.
  - assert (IH' : some_player_finished rest g
                  = (Returned (existsb (player_finished g b) rest), g)).
    { apply IH. intros q Hq. apply Hteams. right. exact Hq. }
    unfold player_finished at 1.
    destruct (Hand_is_empty (hand p)) eqn:He; simpl; [| exact IH'].
    destruct (Hteams p (or_introl eq_refl) He) as (c & t & Hc & Ht).
    unfold bind. rewrite (Player_team_run g p c t Hc Ht). rewrite Hc, Ht.
    destruct (has_grabbed_pile t); simpl; [| exact IH'].
    unfold attr. rewrite Hb.
    destruct (team_has_pure b t); simpl; [reflexivity | exact IH'].
Qed.

(** C4: on a game with a board and players whose team references resolve,
    [is_finished] returns, leaves the game as it is, and its answer is true
    exactly when (a) the deck is empty and no pile remains, or (b) some
    player has an empty hand while its team has grabbed a pile and has a
    pure series on the board; otherwise the answer is false. *)
Theorem is_finished_iff (g : Game) (b : Board) (ps : list Player) :
  board g = Some b ->
  players g = Some ps ->
  (forall p, In p ps -> Hand_is_empty (hand p) = true ->
             exists c t, team p = Some c /\ team_at g c = Some t) ->
  exists r,
    is_finished g = (Returned r, g)
    /\ (r = true <->
        (Deck_is_empty (deck b) = true /\ num_piles_remaining b = 0)
        \/ (exists p c t,
              In p ps /\ Hand_is_empty (hand p) = true
              /\ team p = Some c /\ team_at g c = Some t
              /\ has_grabbed_pile t = true /\ team_has_pure b t = true)).
Proof.
  intros Hb Hps Hteams.
  unfold is_finished, bind, attr, gets. rewrite Hb.
  destruct (Deck_is_empty (deck b) && (num_piles_remaining b =? 0)) eqn:Hempty.
  - exists true. split; [reflexivity |].
    split; [| reflexivity]. intros _. left.
    apply andb_true_iff in Hempty. destruct Hempty as [Hd Hn].
    split; [exact Hd | apply Z.eqb_eq; exact Hn].
  - rewrite Hps. simpl.
    rewrite (some_player_finished_run g b ps Hb Hteams).
    exists (existsb (player_finished g b) ps). split; [reflexivity |].
    rewrite existsb_exists. split.
    + intros (p & Hin & Hfin). right.
      unfold player_finished in Hfin.
      apply andb_true_iff in Hfin. destruct Hfin as [He Hrest].
      destruct (team p) as [c |] eqn:Hc; [| discriminate Hrest].
      destruct (team_at g c) as [t |] eqn:Ht; [| discriminate Hrest].
      apply andb_true_iff in Hrest. destruct Hrest as [Hg Hp].
      exists p, c, t. repeat split; assumption.
    + intros [[Hd Hn] | (p & c & t & Hin & He & Hc & Ht & Hg & Hp)].
      * rewrite Hd in Hempty. apply Z.eqb_eq in Hn. rewrite Hn in Hempty.
        discriminate Hempty.
      * exists p. split; [exact Hin |].
        unfold player_finished. rewrite He, Hc, Ht, Hg, Hp. reflexivity.
Qed.

(** *** One step of the game *)

(** C7: on a game whose [initialized] flag is false, [play_single_step]
    raises [Exception("Game not initialized")] and the game is exactly as it
    was. *)
Theorem play_single_step_uninitialized (verbose : bool) (g : Game) :
  initialized g = false ->
  play_single_step verbose g = (Raised (Exception "Game not initialized"), g).
Proof.
  intro Hinit. unfold play_single_step, bind, gets. rewrite Hinit. reflexivity.
Qed.

(** C10: on an initialized game for which [is_finished] answers true,
    [play_single_step] returns with the game unchanged, whatever the
    players would do if asked: no player is called, the history, the player
    and team indices and the board (so its phase) are as before. *)
Theorem play_single_step_finished (verbose : bool) (g : Game) :
  initialized g = true ->
  fst (is_finished g) = Returned true ->
  play_single_step verbose g = (Returned tt, g).
Proof.
  intros Hinit Hfin.
  unfold play_single_step, bind, gets. rewrite Hinit. simpl.
  rewrite (ReadOnly_run is_finished g is_finished_ReadOnly), Hfin.
  reflexivity.
Qed.

Lemma red_team_ReadOnly : ReadOnly red_team.
Proof.
  unfold red_team. apply RO_bind; [apply RO_gets | intro ts].
  destruct ts as [[| t l] |]; [apply RO_ret | | apply RO_ret].
  apply RO_bind; [apply subscript_ReadOnly | intro; apply RO_ret].
Qed.

Lemma blue_team_ReadOnly : ReadOnly blue_team.
Proof.
  unfold blue_team. apply RO_bind; [apply RO_gets | intro ts].
  destruct ts as [[| t l] |]; [apply RO_ret | | apply RO_ret].
  apply RO_bind; [apply subscript_ReadOnly | intro; apply RO_ret].
Qed.

Lemma _get_team_score_ReadOnly (t : option Team) (l : list CardSeries) (cs : list Card) :
  ReadOnly (_get_team_score t l cs).
Proof.
  unfold _get_team_score. apply RO_bind; [apply receiver_ReadOnly | intro t'].
  destruct (has_grabbed_pile t'); apply RO_ret.
Qed.

Lemma opponent_hands_ReadOnly (refs : list Z) (acc : list Card) :
  ReadOnly (opponent_hands refs acc).
Proof.
  revert acc. induction refs as [| r rest IH]; intro acc; simpl.
  - apply RO_ret.
  - apply RO_bind; [apply RO_gets | intro ps].
    apply RO_bind; [apply subscript_ReadOnly | intro p]. apply IH.
Qed.

Lemma get_red_team_score_ReadOnly (include : bool) : ReadOnly (get_red_team_score include).
Proof.
  unfold get_red_team_score. apply RO_bind.
  - destruct include; [| apply RO_ret].
    apply RO_bind; [apply blue_team_ReadOnly | intro bt].
    apply RO_bind; [apply receiver_ReadOnly | intro t]. apply opponent_hands_ReadOnly.
  - intro cs. apply RO_bind; [apply red_team_ReadOnly | intro rt].
    apply RO_bind; [apply RO_attr | intro b]. apply _get_team_score_ReadOnly.
Qed.

Lemma get_blue_team_score_ReadOnly (include : bool) : ReadOnly (get_blue_team_score include).
Proof.
  unfold get_blue_team_score. apply RO_bind.
  - destruct include; [| apply RO_ret].
    apply RO_bind; [apply red_team_ReadOnly | intro rt].
    apply RO_bind; [apply receiver_ReadOnly | intro t]. apply opponent_hands_ReadOnly.
  - intro cs. apply RO_bind; [apply blue_team_ReadOnly | intro bt].
    apply RO_bind; [apply RO_attr | intro b]. apply _get_team_score_ReadOnly.
Qed.

Lemma get_state_ReadOnly : ReadOnly get_state.
Proof.
  unfold get_state.
  do 4 (apply RO_bind; [apply RO_gets | intro]).
  apply RO_bind; [apply get_red_team_score_ReadOnly | intro].
  apply RO_bind; [apply get_blue_team_score_ReadOnly | intro].
  apply RO_ret.
Qed.

Lemma current_player_ReadOnly : ReadOnly current_player.
Proof.
  unfold current_player.
  do 2 (apply RO_bind; [apply RO_gets | intro]). apply subscript_ReadOnly.
Qed.

(** A player that is asked works on the board, the players and the teams;
    the indices, the history and the flags of the game are out of its
    reach. *)
Lemma call_player_frame (p : Player) (st : GameState) (verbose : bool)
    (g g1 : Game) (r : option Action) :
  call_player p st verbose g = (Returned r, g1) ->
  (exists b1, board g1 = Some b1)
  /\ current_player_index g1 = current_player_index g
  /\ current_team_index g1 = current_team_index g
  /\ keep_history g1 = keep_history g
  /\ history g1 = history g
  /\ initialized g1 = initialized g.
Proof.
  unfold call_player.
  destruct (board g) as [b |]; [| discriminate].
  destruct (players g) as [ps |]; [| discriminate].
  destruct (teams g) as [ts |]; [| discriminate].
  destruct (Player_play_single_step p st verbose (mkTable b ps ts)) as [o t].
  intro H. inversion H; subst. simpl.
  split; [eexists; reflexivity |]. repeat split; reflexivity.
Qed.

Lemma ask_current_player_frame (verbose : bool) (g g1 : Game) (r : option Action) :
  ask_current_player verbose g = (Returned r, g1) ->
  (exists b1, board g1 = Some b1)
  /\ current_player_index g1 = current_player_index g
  /\ current_team_index g1 = current_team_index g
  /\ keep_history g1 = keep_history g
  /\ history g1 = history g
  /\ initialized g1 = initialized g.
Proof.
  unfold ask_current_player, bind.
  rewrite (ReadOnly_run current_player g current_player_ReadOnly).
  destruct (fst (current_player g)) as [p | e]; [| discriminate].
  rewrite (ReadOnly_run get_state g get_state_ReadOnly).
  destruct (fst (get_state g)) as [st | e]; [| discriminate].
  apply call_player_frame.
Qed.

Lemma _next_player_turn_run (g : Game) (i j : Z) (b : Board) :
  current_player_index g = Some i ->
  current_team_index g = Some j ->
  board g = Some b ->
  _next_player_turn g =
  (Returned tt,
   set_game_board (Some (set_phase b DRAW_PHASE))
     (set_current_team_index (Some ((j + 1) mod NUM_TEAMS))
        (set_current_player_index (Some ((i + 1) mod NUM_PLAYERS)) g))).
Proof.
  intros Hi Hj Hb. destruct g as [ps ts cpi cti bd kh hist init].
  simpl in Hi, Hj, Hb. subst cpi cti bd. reflexivity.
Qed.

(** The game after the step of an unfinished, initialized game in which the
    asked player returned. *)
Lemma play_single_step_run (verbose : bool) (g g1 : Game) (action : option Action)
    (i j : Z) (b1 : Board) :
  initialized g = true ->
  fst (is_finished g) = Returned false ->
  ask_current_player verbose g = (Returned action, g1) ->
  current_player_index g = Some i ->
  current_team_index g = Some j ->
  board g1 = Some b1 ->
  let g2 := if keep_history g then snd (history_add action g1) else g1 in
  play_single_step verbose g =
  (Returned tt,
   if GamePhase_eqb (phase b1) END_TURN_PHASE
   then set_game_board (Some (set_phase b1 DRAW_PHASE))
          (set_current_team_index (Some ((j + 1) mod NUM_TEAMS))
             (set_current_player_index (Some ((i + 1) mod NUM_PLAYERS)) g2))
   else g2).
Proof.
  intros Hinit Hfin Hask Hi Hj Hb1 g2.
  destruct (ask_current_player_frame verbose g g1 action Hask)
    as (_ & Hcpi & Hcti & Hkh & _ & _).
  unfold play_single_step, bind at 1, gets at 1. rewrite Hinit. simpl.
  unfold bind at 1.
  rewrite (ReadOnly_run is_finished g is_finished_ReadOnly), Hfin. simpl.
  unfold bind at 1. rewrite Hask.
  unfold bind at 1, gets at 1. rewrite Hkh.
  assert (Hg2 : board g2 = Some b1 /\ current_player_index g2 = Some i
                /\ current_team_index g2 = Some j).
  { subst g2. destruct (keep_history g); simpl; rewrite Hb1, Hcpi, Hcti, Hi, Hj; auto. }
  destruct Hg2 as (Hb2 & Hi2 & Hj2).
  unfold bind at 1.
  assert (Hrec : (if keep_history g then history_add action else ret tt) g1 = (Returned tt, g2)).
  { subst g2. destruct (keep_history g); reflexivity. }
  rewrite Hrec.
  unfold bind, attr. rewrite Hb2.
  destruct (GamePhase_eqb (phase b1) END_TURN_PHASE).
  - apply _next_player_turn_run; assumption.
  - reflexivity.
Qed.

(** C1 (amended): in an initialized, unfinished game whose asked player
    returns, [play_single_step] returns; when the action has left the board
    in the ordinary end-turn phase, the player index has advanced by one
    modulo the player count, the team index by one modulo the team count,
    and the phase is the draw phase; when it has left the board in the
    no-cards end-turn phase, both indices and the board are as the action
    left them. *)
Theorem play_single_step_turn_boundary (verbose : bool) (g g1 : Game)
    (action : option Action) (i j : Z) (b1 : Board) :
  initialized g = true ->
  fst (is_finished g) = Returned false ->
  ask_current_player verbose g = (Returned action, g1) ->
  current_player_index g = Some i ->
  current_team_index g = Some j ->
  board g1 = Some b1 ->
  exists g' b',
    play_single_step verbose g = (Returned tt, g')
    /\ board g' = Some b'
    /\ (phase b1 = END_TURN_PHASE ->
        current_player_index g' = Some ((i + 1) mod NUM_PLAYERS)
        /\ current_team_index g' = Some ((j + 1) mod NUM_TEAMS)
        /\ phase b' = DRAW_PHASE)
    /\ (phase b1 = NO_CARDS_END_TURN_PHASE ->
        current_player_index g' = Some i
        /\ current_team_index g' = Some j
        /\ b' = b1).
Proof.
  intros Hinit Hfin Hask Hi Hj Hb1.
  pose proof (play_single_step_run verbose g g1 action i j b1 Hinit Hfin Hask Hi Hj Hb1)
    as Hrun. cbv zeta in Hrun.
  destruct (ask_current_player_frame verbose g g1 action Hask)
    as (_ & Hcpi & Hcti & _ & _ & _).
  set (g2 := if keep_history g then snd (history_add action g1) else g1) in *.
  assert (Hg2 : board g2 = Some b1 /\ current_player_index g2 = Some i
                /\ current_team_index g2 = Some j).
  { subst g2. destruct (keep_history g); simpl; rewrite Hb1, Hcpi, Hcti, Hi, Hj; auto. }
  destruct Hg2 as (Hb2 & Hi2 & Hj2).
  destruct (GamePhase_eqb (phase b1) END_TURN_PHASE) eqn:Hphase.
  - eexists. exists (set_phase b1 DRAW_PHASE).
    split; [exact Hrun |]. split; [reflexivity |]. split.
    + intros _. repeat split; reflexivity.
    + intro Hno. apply GamePhase_eqb_eq in Hphase. rewrite Hno in Hphase. discriminate Hphase.
  - exists g2, b1.
    split; [exact Hrun |]. split; [exact Hb2 |]. split.
    + intro Hend. rewrite Hend in Hphase. discriminate Hphase.
    + intros _. repeat split; assumption.
Qed.

(** *** Card conservation *)

Lemma Card_eqb_eq (a b : Card) : Card_eqb a b = true <-> a = b.
Proof.
  unfold Card_eqb. split.
  - intro H. repeat (apply andb_true_iff in H; destruct H as [H ?]).
    destruct a, b; simpl in *.
    repeat match goal with
           | E : (_ =? _) = true |- _ => apply Z.eqb_eq in E
           | E : Bool.eqb _ _ = true |- _ => apply Bool.eqb_prop in E
           end.
    subst. reflexivity.
  - intros ->. rewrite !Z.eqb_refl, !Bool.eqb_reflx. reflexivity.
Qed.

Lemma Hand_pop_Some (h : Hand) (c x : Card) (h' : Hand) :
  Hand_pop h c = Some (x, h') -> x = c /\ Permutation h (c :: h').
Proof.
  revert h'. induction h as [| y h IH]; intros h' H; simpl in H.
  - discriminate H.
  - destruct (Card_eqb c y) eqn:E.
    + inversion H; subst. apply Card_eqb_eq in E. subst. split; [reflexivity | apply Permutation_refl].
    + destruct (Hand_pop h c) as [[z h''] |]; [| discriminate H].
      inversion H; subst. destruct (IH h'' eq_refl) as [-> Hperm].
      split; [reflexivity |].
      apply Permutation_trans with (y :: c :: h'').
      * apply perm_skip. exact Hperm.
      * apply perm_swap.
Qed.

Lemma Hand_contains_pop (h : Hand) (c : Card) :
  Hand_contains h c = true -> exists h', Hand_pop h c = Some (c, h').
Proof.
  unfold Hand_contains. induction h as [| y h IH]; simpl; intro H.
  - discriminate H.
  - destruct (Card_eqb c y) eqn:E.
    + apply Card_eqb_eq in E. subst. eexists. reflexivity.
    + destruct (IH H) as [h' ->]. eexists. reflexivity.
Qed.

Lemma pop_from_hand_run {A} (c x : Card) (f f' : Frame A) :
  pop_from_hand c f = (Returned x, f') ->
  x = c
  /\ Permutation (hand (fr_player f)) (c :: hand (fr_player f'))
  /\ team (fr_player f') = team (fr_player f)
  /\ fr_board f' = fr_board f
  /\ fr_self f' = fr_self f.
Proof.
  unfold pop_from_hand, bind, gets, modify, ret.
  destruct (Hand_pop (hand (fr_player f)) c) as [[y h'] |] eqn:E; [| discriminate].
  intro H. inversion H; subst. simpl.
  destruct (Hand_pop_Some _ _ _ _ E) as [-> Hperm].
  repeat split; try reflexivity. exact Hperm.
Qed.

Lemma pop_all_run (cs : list Card) (f f' : Frame PutAction) :
  pop_all cs f = (Returned tt, f') ->
  Permutation (hand (fr_player f)) (cs ++ hand (fr_player f'))
  /\ team (fr_player f') = team (fr_player f)
  /\ fr_board f' = fr_board f
  /\ fr_self f' = fr_self f.
Proof.
  revert f. induction cs as [| c rest IH]; intros f H; simpl in H.
  - inversion H; subst. repeat split; apply Permutation_refl.
  - unfold bind in H.
    destruct (pop_from_hand c f) as [[x | e] f1] eqn:E; [| discriminate H].
    destruct (pop_from_hand_run c x f f1 E) as (_ & Hperm & Ht & Hb & Hs).
    destruct (IH f1 H) as (Hperm' & Ht' & Hb' & Hs').
    repeat split; try congruence.
    simpl. apply Permutation_trans with (c :: hand (fr_player f1)); [exact Hperm |].
    apply perm_skip. exact Hperm'.
Qed.

Lemma board_cards_with_stack (b : Board) (c : Card) :
  Permutation (board_cards (with_stack b (Stack_put (stack b) c))) (c :: board_cards b).
Proof.
  unfold board_cards, Stack_put. simpl.
  set (rest := stack b ++ List.concat (map cards (red_team_series b))
               ++ List.concat (map cards (blue_team_series b))).
  replace (deck b ++ left_pile b ++ right_pile b ++ c :: rest)
    with ((deck b ++ left_pile b ++ right_pile b) ++ c :: rest)
    by (rewrite <- !app_assoc; reflexivity).
  replace (c :: deck b ++ left_pile b ++ right_pile b ++ rest)
    with (c :: (deck b ++ left_pile b ++ right_pile b) ++ rest)
    by (rewrite <- !app_assoc; reflexivity).
  apply Permutation_sym, Permutation_middle.
Qed.

Lemma board_cards_with_series (b : Board) (c : TeamColor) (s : CardSeries) :
  Permutation (board_cards (with_series b c (series_of b c ++ [s])))
              (cards s ++ board_cards b).
Proof.
  unfold board_cards.
  set (front := deck b ++ left_pile b ++ right_pile b ++ stack b).
  set (red := List.concat (map cards (red_team_series b))).
  set (blue := List.concat (map cards (blue_team_series b))).
  destruct c; simpl; rewrite map_app, concat_app; simpl; rewrite app_nil_r;
    fold front red blue.
  - replace (deck b ++ left_pile b ++ right_pile b ++ stack b ++ (red ++ cards s) ++ blue)
      with ((front ++ red) ++ cards s ++ blue)
      by (unfold front; rewrite <- !app_assoc; reflexivity).
    replace (cards s ++ deck b ++ left_pile b ++ right_pile b ++ stack b ++ red ++ blue)
      with (cards s ++ (front ++ red) ++ blue)
      by (unfold front; rewrite <- !app_assoc; reflexivity).
    apply Permutation_app_swap_app.
  - replace (deck b ++ left_pile b ++ right_pile b ++ stack b ++ red ++ blue ++ cards s)
      with ((front ++ red ++ blue) ++ cards s)
      by (unfold front; rewrite <- !app_assoc; reflexivity).
    replace (cards s ++ deck b ++ left_pile b ++ right_pile b ++ stack b ++ red ++ blue)
      with (cards s ++ front ++ red ++ blue)
      by (unfold front; rewrite <- !app_assoc; reflexivity).
    apply Permutation_app_comm.
Qed.

(** [DiscardCardAction._execute] moves one card from the hand to the
    stack. *)
Lemma DiscardCardAction__execute_cards (f f' : Frame DiscardCardAction) :
  DiscardCardAction__execute f = (Returned tt, f') ->
  Permutation (frame_cards f') (frame_cards f).
Proof.
  unfold DiscardCardAction__execute, bind at 1, gets at 1.
  unfold bind at 1.
  destruct (pop_from_hand (discard_card (fr_self f)) f) as [[x | e] f1] eqn:E; [| discriminate].
  destruct (pop_from_hand_run _ _ _ _ E) as (-> & Hperm & _ & Hb & _).
  unfold bind, gets, modify. intro H. inversion H; subst. clear H.
  unfold frame_cards. simpl. rewrite Hb.
  apply Permutation_trans with
    (hand (fr_player f1) ++ discard_card (fr_self f) :: board_cards (fr_board f)).
  - apply Permutation_app_head. apply board_cards_with_stack.
  - apply Permutation_sym.
    apply Permutation_trans with
      ((discard_card (fr_self f) :: hand (fr_player f1)) ++ board_cards (fr_board f)).
    + apply Permutation_app_tail. exact Hperm.
    + simpl. apply Permutation_middle.
Qed.

(** [PutAction._execute] moves the cards of the series from the hand to
    the series of the player's team. *)
Lemma PutAction__execute_cards (f f' : Frame PutAction) :
  PutAction__execute f = (Returned tt, f') ->
  Permutation (frame_cards f') (frame_cards f).
Proof.
  unfold PutAction__execute, bind at 1, gets at 1.
  unfold bind at 1.
  destruct (pop_all (cards (series (fr_self f))) f) as [[[] | e] f1] eqn:E; [| discriminate].
  destruct (pop_all_run _ _ _ E) as (Hperm & _ & Hb & _).
  unfold bind at 1, get_series_for_player, bind at 1, gets at 1.
  destruct (team (fr_player f1)) as [c |]; [| discriminate].
  simpl. unfold append_series, bind, gets, modify.
  intro H. inversion H; subst. clear H.
  unfold frame_cards. simpl. rewrite Hb.
  apply Permutation_trans with
    (hand (fr_player f1) ++ cards (series (fr_self f)) ++ board_cards (fr_board f)).
  - apply Permutation_app_head. apply board_cards_with_series.
  - rewrite app_assoc. apply Permutation_app_tail.
    apply Permutation_sym.
    apply Permutation_trans with (cards (series (fr_self f)) ++ hand (fr_player f1));
      [exact Hperm | apply Permutation_app_comm].
Qed.

Lemma skipn_nth_error {A} (l : list A) (n : nat) (p : A) :
  nth_error l n = Some p -> skipn n l = p :: skipn (S n) l.
Proof.
  revert l. induction n as [| n IH]; intros [| x l] H; simpl in H; try discriminate H.
  - inversion H; subst. reflexivity.
  - simpl. apply IH. exact H.
Qed.

Lemma list_set_nth_error {A} (l : list A) (n : nat) (p x : A) :
  nth_error l n = Some p ->
  l = firstn n l ++ p :: skipn (S n) l
  /\ list_set l n x = firstn n l ++ x :: skipn (S n) l.
Proof.
  intro H. pose proof (skipn_nth_error l n p H) as Hskip. split.
  - rewrite <- Hskip. symmetry. apply firstn_skipn.
  - unfold list_set. rewrite Hskip. reflexivity.
Qed.

Lemma hands_cards_app (l1 l2 : list Player) :
  hands_cards (l1 ++ l2) = hands_cards l1 ++ hands_cards l2.
Proof. unfold hands_cards. rewrite map_app, concat_app. reflexivity. Qed.

Lemma Permutation_pull {A} (x a y c : list A) :
  Permutation (x ++ a ++ y ++ c) ((y ++ x) ++ a ++ c).
Proof.
  apply Permutation_trans with (x ++ y ++ a ++ c).
  - apply Permutation_app_head. apply Permutation_app_swap_app.
  - rewrite app_assoc. apply Permutation_app_tail. apply Permutation_app_comm.
Qed.

(** An action that keeps the cards of its frame keeps the cards of the
    game. *)
Lemma unseat_cards {A} (a : A) (i : nat) (g : Game) (f f' : Frame A) :
  seat a i g = Some f ->
  Permutation (frame_cards f') (frame_cards f) ->
  Permutation (all_cards (unseat f' i g)) (all_cards g).
Proof.
  unfold seat, unseat, all_cards, frame_cards.
  destruct (players g) as [ps |] eqn:Hps; [| discriminate].
  destruct (board g) as [b |] eqn:Hb; [| discriminate].
  destruct (nth_error ps i) as [p |] eqn:Hp; [| discriminate].
  intro H. inversion H; subst. clear H. simpl.
  intro Hperm.
  destruct (list_set_nth_error ps i p (fr_player f') Hp) as [Hsplit Hset].
  rewrite Hset.
  assert (Hh : hands_cards ps
               = hands_cards (firstn i ps) ++ hand p ++ hands_cards (skipn (S i) ps)).
  { rewrite Hsplit at 1. rewrite hands_cards_app. reflexivity. }
  rewrite Hh, hands_cards_app.
  change (hands_cards (fr_player f' :: skipn (S i) ps))
    with (hand (fr_player f') ++ hands_cards (skipn (S i) ps)).
  eapply Permutation_trans; [apply Permutation_pull |].
  eapply Permutation_trans; [| apply Permutation_sym, Permutation_pull].
  apply Permutation_app_tail. exact Hperm.
Qed.

Lemma board_cards_set_phase (b : Board) (ph : GamePhase) :
  board_cards (set_phase b ph) = board_cards b.
Proof. reflexivity. Qed.

(** Every move keeps the cards of the game. *)
Lemma step_cards (g g' : Game) :
  step g g' -> Permutation (all_cards g') (all_cards g).
Proof.
  intro H. destruct H as [g i a v f f' Hseat _ Hexec | g i a v f f' Hseat _ Hexec
                          | g b ph Hb | g g' Hturn].
  - apply (unseat_cards a i g f f' Hseat).
    apply DiscardCardAction__execute_cards. exact Hexec.
  - apply (unseat_cards a i g f f' Hseat).
    apply PutAction__execute_cards. exact Hexec.
  - unfold all_cards. simpl. rewrite Hb. apply Permutation_refl.
  - unfold _next_player_turn, bind, gets, modify, increment, modulo, attr in Hturn.
    destruct g as [ps ts cpi cti bd kh hist init]. simpl in Hturn.
    destruct cpi as [i |]; [| discriminate Hturn]. simpl in Hturn.
    destruct cti as [j |]; [| discriminate Hturn]. simpl in Hturn.
    destruct bd as [b |]; [| discriminate Hturn].
    inversion Hturn; subst. apply Permutation_refl.
Qed.

(** Moves of the sample games. *)
Lemma step_in_phase (ph : GamePhase) (g : Game) (b : Board) :
  board g = Some b ->
  step g (in_phase ph g).
Proof.
  intro Hb. unfold in_phase. rewrite Hb. apply step_set_phase. exact Hb.
Qed.

Lemma step_after_put (a : PutAction) (i : nat) (g : Game)
    (f : Frame PutAction) :
  seat a i g = Some f ->
  PutAction_validate false f = (Returned true, f) ->
  fst (PutAction__execute f) = Returned tt ->
  step g (after_put a i g).
Proof.
  intros Hseat Hvalid Hexec. unfold after_put. rewrite Hseat.
  apply (step_put g i a false f _ Hseat Hvalid).
  destruct (PutAction__execute f) as [r f']. simpl in *. rewrite Hexec. reflexivity.
Qed.

Lemma step_after_discard (a : DiscardCardAction) (i : nat) (g : Game)
    (f : Frame DiscardCardAction) :
  seat a i g = Some f ->
  DiscardCardAction_validate false f = (Returned true, f) ->
  fst (DiscardCardAction__execute f) = Returned tt ->
  step g (after_discard a i g).
Proof.
  intros Hseat Hvalid Hexec. unfold after_discard. rewrite Hseat.
  apply (step_discard g i a false f _ Hseat Hvalid).
  destruct (DiscardCardAction__execute f) as [r f']. simpl in *. rewrite Hexec. reflexivity.
Qed.

Lemma hand_new_player (i : Z) : hand (new_player i) = [].
Proof. unfold new_player. destruct (existsb (Z.eqb i) AI_PLAYER_INDEXES); reflexivity. Qed.

Lemma _initialize_players_run (g : Game) :
  _initialize_players g =
  (Returned tt,
   set_teams (Some [mkTeam [0; 2] RED false; mkTeam [1; 3] BLUE false])
     (set_players (Some seated_players) g)).
Proof. destruct g. reflexivity. Qed.

Lemma Deck_deal_n_Some (d : Deck) (n : Z) (cs : list Card) (d' : Deck) :
  Deck_deal_n d n = Some (cs, d') -> d = cs ++ d'.
Proof.
  unfold Deck_deal_n.
  destruct (Z.to_nat n <=? List.length d)%nat; [| discriminate].
  intro H. inversion H; subst. symmetry. apply firstn_skipn.
Qed.

Lemma deal_hands_Some (k : nat) (d : Deck) (hs : list Hand) (d' : Deck) :
  deal_hands k d = Some (hs, d') ->
  List.length hs = k /\ d = List.concat hs ++ d'.
Proof.
  revert d hs. induction k as [| k IH]; intros d hs H; simpl in H.
  - inversion H; subst. split; reflexivity.
  - destruct (Deck_deal_n d NUM_CARDS_IN_STARTING_HAND) as [[h d1] |] eqn:E; [| discriminate H].
    destruct (deal_hands k d1) as [[hs' d2] |] eqn:E'; [| discriminate H].
    inversion H; subst.
    destruct (IH d1 hs' E') as [Hlen Hd1].
    split; [simpl; rewrite Hlen; reflexivity |].
    simpl. rewrite <- app_assoc, <- Hd1. apply (Deck_deal_n_Some _ _ _ _ E).
Qed.

Lemma hands_cards_dealt (l : list Player) (hs : list Hand) :
  List.length hs = List.length l ->
  hands_cards (map (fun ph => with_hand (fst ph) (snd ph)) (combine l hs)) = List.concat hs.
Proof.
  revert hs. induction l as [| p l IH]; intros [| h hs] Hlen; simpl in Hlen; try discriminate Hlen.
  - reflexivity.
  - unfold hands_cards in *. simpl. rewrite IH; [reflexivity | lia].
Qed.

Lemma bind_Returned {S A B} (m : M S A) (k : A -> M S B) (s s2 : S) (b : B) :
  bind m k s = (Returned b, s2) ->
  exists a s1, m s = (Returned a, s1) /\ k a s1 = (Returned b, s2).
Proof.
  unfold bind. destruct (m s) as [[a | e] s1]; [| discriminate].
  intro H. exists a, s1. split; [reflexivity | exact H].
Qed.

Tactic Notation "bind_inv" hyp(H) "as" ident(a) ident(s) ident(H1) :=
  apply bind_Returned in H; destruct H as (a & s & H1 & H).

Lemma _deal_hands_run (d d' : Deck) (g g' : Game) :
  _deal_hands d g = (Returned d', g') ->
  exists l hs,
    players g = Some l
    /\ deal_hands (List.length l) d = Some (hs, d')
    /\ g' = set_players (Some (map (fun ph => with_hand (fst ph) (snd ph)) (combine l hs))) g.
Proof.
  intro H. unfold _deal_hands in H.
  bind_inv H as ps g1 Hps. inversion Hps; subst ps g1; clear Hps.
  bind_inv H as l g1 Hl. unfold iterable in Hl.
  destruct (players g) as [l' |] eqn:Hplayers; [| discriminate Hl].
  inversion Hl; subst l g1; clear Hl.
  destruct (deal_hands (List.length l') d) as [[hs d1] |] eqn:Hdeal; [| discriminate H].
  unfold bind, modify, ret in H. inversion H; subst.
  exists l', hs. split; [reflexivity |]. split; [exact Hdeal | reflexivity].
Qed.

Lemma _initialize_board_run (d : Deck) (g g' : Game) :
  _initialize_board d g = (Returned tt, g') ->
  exists lp rp d',
    d = lp ++ rp ++ d'
    /\ g' = set_game_board (Some (Board_init d' lp rp)) g.
Proof.
  unfold _initialize_board.
  destruct (Deck_deal_n d NUM_CARDS_IN_PILE) as [[lp d1] |] eqn:El; [| discriminate].
  destruct (Deck_deal_n d1 NUM_CARDS_IN_PILE) as [[rp d2] |] eqn:Er; [| discriminate].
  apply Deck_deal_n_Some in El, Er.
  unfold modify. intro H. inversion H; subst.
  exists lp, rp, d2. split; reflexivity.
Qed.

Lemma _initialize_board_stack_run (g g' : Game) (b : Board) :
  board g = Some b ->
  _initialize_board_stack g = (Returned tt, g') ->
  exists c d',
    deck b = c :: d'
    /\ g' = set_game_board (Some (with_stack (with_deck b d') (Stack_put (stack b) c))) g.
Proof.
  intro Hb. unfold _initialize_board_stack, bind at 1, attr at 1. rewrite Hb.
  destruct (deck b) as [| c d']; [discriminate |]. simpl.
  unfold bind, modify, attr. simpl. intro H. inversion H; subst.
  exists c, d'. split; [reflexivity |]. destruct g; reflexivity.
Qed.

(** After [initialize_game] on a new game the cards of the game are those
    of the shuffled deck. *)
Lemma initialize_game_cards (kh : bool) (g : Game) :
  initialize_game (Game_init kh) = (Returned tt, g) ->
  Permutation (all_cards g) shuffled_double_deck.
Proof.
  intro H. unfold initialize_game in H.
  bind_inv H as init g0 Hs. inversion Hs; subst init g0; clear Hs. simpl in H.
  bind_inv H as u g1 Hs. inversion Hs; subst u g1; clear Hs.
  bind_inv H as u g1 Hs. inversion Hs; subst u g1; clear Hs.
  bind_inv H as u g1 Hs. rewrite _initialize_players_run in Hs.
  inversion Hs; subst u g1; clear Hs.
  bind_inv H as d g1 Hs. inversion Hs; subst d g1; clear Hs.
  bind_inv H as d0 g1 Hs. apply _deal_hands_run in Hs.
  destruct Hs as (l & hs & Hl & Hdeal & ->). simpl in Hl. inversion Hl; subst l; clear Hl.
  destruct (deal_hands_Some _ _ _ _ Hdeal) as [Hlen Hdeck].
  bind_inv H as u g1 Hs. destruct u. apply _initialize_board_run in Hs.
  destruct Hs as (lp & rp & d1 & Hd & ->).
  bind_inv H as u' g1 Hs. destruct u'.
  eapply _initialize_board_stack_run in Hs; [| reflexivity].
  destruct Hs as (c & d2 & Hd1 & ->). simpl in Hd1. subst d1.
  bind_inv H as b g1 Hs. inversion Hs; subst b g1; clear Hs.
  bind_inv H as u2 g1 Hs. inversion Hs; subst u2 g1; clear Hs.
  bind_inv H as u3 g1 Hs. inversion Hs; subst u3 g1; clear Hs.
  bind_inv H as kh' g1 Hs. inversion Hs; subst kh' g1; clear Hs.
  assert (Hcards : all_cards g = (d2 ++ lp ++ rp ++ [c]) ++ List.concat hs).
  { assert (Hg : players g
                 = Some (map (fun ph => with_hand (fst ph) (snd ph)) (combine seated_players hs))
                 /\ board g
                    = Some (set_phase
                              (with_stack (with_deck (Board_init (c :: d2) lp rp) d2)
                                          (Stack_put [] c)) DRAW_PHASE)).
    { destruct kh; unfold history_add, modify, ret in H; inversion H; subst;
        split; reflexivity. }
    destruct Hg as [Hp Hb]. unfold all_cards. rewrite Hp, Hb.
    rewrite (hands_cards_dealt seated_players hs Hlen).
    unfold board_cards. simpl. rewrite <- ?app_assoc. reflexivity. }
  rewrite Hcards, Hdeck, Hd.
  apply Permutation_trans with (List.concat hs ++ d2 ++ lp ++ rp ++ [c]);
    [apply Permutation_app_comm |].
  apply Permutation_app_head.
  replace (lp ++ rp ++ c :: d2) with ((lp ++ rp) ++ c :: d2)
    by (rewrite <- !app_assoc; reflexivity).
  replace (d2 ++ lp ++ rp ++ [c]) with ((d2 ++ lp ++ rp) ++ [c])
    by (rewrite <- !app_assoc; reflexivity).
  eapply Permutation_trans; [apply Permutation_app_comm |]. simpl.
  apply (Permutation_cons_app (lp ++ rp) d2 c).
  apply (Permutation_app_comm d2 (lp ++ rp)).
Qed.

(** X22: the moves that complete only move cards.  In every state a dealt
    game gets to by validated discards and puts whose execution returns,
    by changes of phase and by passing the turn, the cards of the deck,
    the two piles, the stack, the players' hands and the teams' series
    are, as a multiset, the cards of the deck that was dealt. *)
Theorem card_conservation (g : Game) :
  played g -> Permutation (all_cards g) shuffled_double_deck.
Proof.
  induction 1 as [kh g Hinit | g g' _ IH Hstep].
  - exact (initialize_game_cards kh g Hinit).
  - apply Permutation_trans with (all_cards g); [| exact IH].
    apply step_cards. exact Hstep.
Qed.

Lemma pop_from_hand_returns {A} (c : Card) (f : Frame A) :
  Hand_contains (hand (fr_player f)) c = true ->
  exists h',
    Hand_pop (hand (fr_player f)) c = Some (c, h')
    /\ pop_from_hand c f = (Returned c, set_player (with_hand (fr_player f) h') f).
Proof.
  intro Hheld. destruct (Hand_contains_pop _ _ Hheld) as [h' Hpop].
  exists h'. split; [exact Hpop |].
  unfold pop_from_hand, bind at 1, gets at 1. cbv beta iota. rewrite Hpop.
  reflexivity.
Qed.

(** A validated discard always executes. *)
Lemma DiscardCardAction__execute_returns (verbose : bool) (f : Frame DiscardCardAction) :
  DiscardCardAction_validate verbose f = (Returned true, f) ->
  exists f', DiscardCardAction__execute f = (Returned tt, f').
Proof.
  rewrite DiscardCardAction_validate_run. intro H. inversion H as [Hv]. clear H.
  apply andb_true_iff in Hv. destruct Hv as [_ Hheld].
  destruct (pop_from_hand_returns _ f Hheld) as (h' & _ & Hpop).
  unfold DiscardCardAction__execute, bind at 1, gets at 1. cbv beta iota.
  unfold bind at 1. rewrite Hpop.
  eexists. reflexivity.
Qed.

Lemma Hand_contains_In (h : Hand) (c : Card) : Hand_contains h c = true <-> In c h.
Proof.
  unfold Hand_contains. rewrite existsb_exists. split.
  - intros (x & Hin & E). apply Card_eqb_eq in E. subst. exact Hin.
  - intro Hin. exists c. split; [exact Hin | apply Card_eqb_eq; reflexivity].
Qed.

Lemma pop_all_returns (cs : list Card) (f : Frame PutAction) :
  NoDup cs ->
  forallb (Hand_contains (hand (fr_player f))) cs = true ->
  exists f', pop_all cs f = (Returned tt, f').
Proof.
  revert f. induction cs as [| c rest IH]; intros f Hnodup Hheld; simpl.
  - eexists. reflexivity.
  - simpl in Hheld. apply andb_true_iff in Hheld. destruct Hheld as [Hc Hrest].
    inversion Hnodup as [| ? ? Hnotin Hnodup']; subst.
    destruct (pop_from_hand_returns _ f Hc) as (h' & Hpop & Hrun).
    unfold bind at 1. rewrite Hrun.
    apply IH; [exact Hnodup' |]. simpl.
    apply forallb_forall. intros x Hx.
    rewrite forallb_forall in Hrest. specialize (Hrest x Hx).
    apply Hand_contains_In. apply Hand_contains_In in Hrest.
    destruct (Hand_pop_Some _ _ _ _ Hpop) as [_ Hperm].
    apply (Permutation_in _ Hperm) in Hrest. destruct Hrest as [-> | Hin].
    + contradiction.
    + exact Hin.
Qed.

(** A validated put of pairwise different cards by a player with a team
    always executes. *)
Lemma PutAction__execute_returns (verbose : bool) (f : Frame PutAction) (c : TeamColor) :
  PutAction_validate verbose f = (Returned true, f) ->
  NoDup (cards (series (fr_self f))) ->
  team (fr_player f) = Some c ->
  exists f', PutAction__execute f = (Returned tt, f').
Proof.
  rewrite PutAction_validate_run. intros H Hnodup Hteam. inversion H as [Hv]. clear H.
  apply andb_true_iff in Hv. destruct Hv as [Hv _].
  apply andb_true_iff in Hv. destruct Hv as [_ Hheld].
  destruct (pop_all_returns _ f Hnodup Hheld) as [f1 Hpop].
  destruct (pop_all_run _ _ _ Hpop) as (_ & Ht & _ & _).
  unfold PutAction__execute, bind at 1, gets at 1. unfold bind at 1. rewrite Hpop.
  unfold bind at 1, get_series_for_player, bind at 1, gets at 1.
  rewrite Ht, Hteam. simpl. unfold append_series, bind, gets, modify.
  eexists. reflexivity.
Qed.

(** *** Pure series *)




(** *** More on the two actions *)

Lemma any_is_joker (l : list Card) :
  any (map is_joker l) = true <-> exists c, In c l /\ is_joker c = true.
Proof.
  unfold any. rewrite existsb_exists. split.
  - intros (x & Hin & Hx). apply in_map_iff in Hin. destruct Hin as (c & Hc & Hin).
    exists c. split; [exact Hin | congruence].
  - intros (c & Hin & Hc). exists true. split; [| reflexivity].
    apply in_map_iff. exists c. split; assumption.
Qed.

Lemma holds_all_In (h : Hand) (cs : list Card) :
  forallb (Hand_contains h) cs = true <-> forall c, In c cs -> In c h.
Proof.
  rewrite forallb_forall. split; intros H c Hc.
  - apply Hand_contains_In. apply H. exact Hc.
  - apply Hand_contains_In. apply H. exact Hc.
Qed.

(** X1: [PutAction.validate] accepts exactly when all five checks pass:
    the phase is the action or the play-joker phase; in the play-joker
    phase the series holds a joker; a put that leaves at most one card is
    authorised by [player_may_clear_hand]; every card of the series occurs
    in the hand; and the series is valid. *)
Theorem PutAction_validate_accepts_iff (verbose : bool) (f : Frame PutAction) :
  PutAction_validate verbose f = (Returned true, f) <->
  (phase (fr_board f) = ACTION_PHASE \/ phase (fr_board f) = PLAY_JOKER_PHASE)
  /\ (phase (fr_board f) = PLAY_JOKER_PHASE ->
      exists c, In c (cards (series (fr_self f))) /\ is_joker c = true)
  /\ (num_cards (fr_player f) <= len (cards (series (fr_self f))) + 1 ->
      player_may_clear_hand (fr_board f) (fr_player f) (fr_self f) = true)
  /\ (forall c, In c (cards (series (fr_self f))) -> In c (hand (fr_player f)))
  /\ is_valid (series (fr_self f)) = true.
Proof.
  rewrite PutAction_validate_run.
  set (b := fr_board f). set (a := fr_self f). set (p := fr_player f).
  split.
  - intro H. injection H as Hv.
    repeat (apply andb_true_iff in Hv; destruct Hv as [Hv ?]).
    repeat split.
    + unfold phase_in in Hv. simpl in Hv. rewrite orb_false_r in Hv.
      apply orb_true_iff in Hv. destruct Hv as [Hv | Hv]; apply GamePhase_eqb_eq in Hv; auto.
    + intro Hj. apply any_is_joker.
      match goal with Hn : negb (GamePhase_eqb _ PLAY_JOKER_PHASE && _) = true |- _ =>
        rewrite Hj in Hn; simpl in Hn; apply negb_true_iff in Hn;
        apply negb_false_iff in Hn; exact Hn end.
    + intro Hfew. apply Z.leb_le in Hfew.
      match goal with Hn : negb ((num_cards _ <=? _) && _) = true |- _ =>
        rewrite Hfew in Hn; simpl in Hn; apply negb_true_iff in Hn;
        apply negb_false_iff in Hn; exact Hn end.
    + apply holds_all_In. assumption.
    + assumption.
  - intros (Hphase & Hjoker & Hclear & Hheld & Hvalid).
    f_equal. f_equal.
    repeat (apply andb_true_iff; split).
    + unfold phase_in. simpl.
      destruct Hphase as [-> | ->]; reflexivity.
    + apply negb_true_iff.
      destruct (GamePhase_eqb (phase b) PLAY_JOKER_PHASE) eqn:E; [| reflexivity].
      apply GamePhase_eqb_eq in E. simpl. apply negb_false_iff.
      apply any_is_joker. apply Hjoker. exact E.
    + apply negb_true_iff.
      destruct (num_cards p <=? len (cards (series a)) + 1) eqn:E; [| reflexivity].
      apply Z.leb_le in E. simpl. rewrite (Hclear E). reflexivity.
    + apply holds_all_In. exact Hheld.
    + exact Hvalid.
Qed.

Lemma copies_cons (y c : Card) (l : list Card) :
  copies y (c :: l) = ((if Card_eqb y c then 1 else 0) + copies y l)%nat.
Proof. unfold copies. simpl. destruct (Card_eqb y c); reflexivity. Qed.

Lemma Card_eqb_sym (a b : Card) : Card_eqb a b = Card_eqb b a.
Proof.
  destruct (Card_eqb a b) eqn:E.
  - apply Card_eqb_eq in E. subst. symmetry. apply Card_eqb_eq. reflexivity.
  - destruct (Card_eqb b a) eqn:E'; [| reflexivity].
    apply Card_eqb_eq in E'. subst.
    assert (Card_eqb a a = true) by (apply Card_eqb_eq; reflexivity). congruence.
Qed.

Lemma Hand_pop_copies (h : Hand) (c x : Card) (h' : Hand) (y : Card) :
  Hand_pop h c = Some (x, h') ->
  copies y h = ((if Card_eqb y c then 1 else 0) + copies y h')%nat.
Proof.
  revert h'. induction h as [| z h IH]; intros h' H; simpl in H.
  - discriminate H.
  - destruct (Card_eqb c z) eqn:E.
    + inversion H; subst. apply Card_eqb_eq in E. subst. apply copies_cons.
    + destruct (Hand_pop h c) as [[w h''] |]; [| discriminate H].
      inversion H; subst. rewrite !copies_cons, (IH h'' eq_refl). lia.
Qed.

Lemma Hand_pop_None (h : Hand) (c : Card) :
  Hand_pop h c = None -> copies c h = O.
Proof.
  induction h as [| z h IH]; simpl; intro H.
  - reflexivity.
  - destruct (Card_eqb c z) eqn:E; [discriminate H |].
    destruct (Hand_pop h c) as [[w h''] |]; [discriminate H |].
    rewrite copies_cons, E. simpl. apply IH. reflexivity.
Qed.

Lemma copies_app (y : Card) (l1 l2 : list Card) :
  copies y (l1 ++ l2) = (copies y l1 + copies y l2)%nat.
Proof. unfold copies. rewrite filter_app, length_app. reflexivity. Qed.

Lemma copies_Permutation (y : Card) (l1 l2 : list Card) :
  Permutation l1 l2 -> copies y l1 = copies y l2.
Proof.
  induction 1 as [| x l l' _ IH | x z l | l l' l'' _ IH1 _ IH2].
  - reflexivity.
  - rewrite !copies_cons, IH. reflexivity.
  - rewrite !copies_cons. lia.
  - rewrite IH1. exact IH2.
Qed.

(** A series on the board counts among the cards of the board. *)
Lemma copies_laid_down (y : Card) (s : CardSeries) (b : Board) :
  In s (red_team_series b) \/ In s (blue_team_series b) ->
  (copies y (cards s) <= copies y (board_cards b))%nat.
Proof.
  assert (Hin : forall l, In s l ->
                  (copies y (cards s) <= copies y (List.concat (map cards l)))%nat).
  { induction l as [| s' l IH]; simpl; intro H; [contradiction |].
    rewrite copies_app. destruct H as [-> | H]; [lia |].
    specialize (IH H). lia. }
  unfold board_cards. rewrite !copies_app.
  intros [H | H]; apply Hin in H; lia.
Qed.

(** Whatever [pop_all] does, it works on the hand alone and fails with
    [ValueError] only. *)
Lemma pop_all_outcome (cs : list Card) (f : Frame PutAction) :
  exists r f',
    pop_all cs f = (r, f')
    /\ fr_board f' = fr_board f /\ fr_self f' = fr_self f
    /\ team (fr_player f') = team (fr_player f)
    /\ (r = Returned tt <-> forall x, (copies x cs <= copies x (hand (fr_player f)))%nat)
    /\ (r <> Returned tt -> r = Raised ValueError).
Proof.
  revert f. induction cs as [| c rest IH]; intro f; simpl.
  - exists (Returned tt), f. repeat split; try reflexivity.
    + intros _ x. unfold copies. simpl. lia.
    + intro H. contradiction H. reflexivity.
  - unfold bind, pop_from_hand at 1, bind at 1, gets at 1. cbv beta iota.
    destruct (Hand_pop (hand (fr_player f)) c) as [[x h'] |] eqn:E.
    + unfold bind, modify, ret. cbv beta iota.
      destruct (IH (set_player (with_hand (fr_player f) h') f))
        as (r & f' & Hrun & Hb & Hs & Ht & Hiff & Hraise).
      exists r, f'. split; [exact Hrun |]. simpl in *.
      split; [exact Hb |]. split; [exact Hs |]. split; [exact Ht |].
      split; [| exact Hraise].
      rewrite Hiff. split; intros H y; specialize (H y);
        rewrite copies_cons in *; rewrite (Hand_pop_copies _ _ _ _ y E) in *; lia.
    + unfold raise. exists (Raised ValueError), f.
      repeat split; try reflexivity; try discriminate.
      * intros H. specialize (H c). rewrite copies_cons in H.
        rewrite (Hand_pop_None _ _ E) in H.
        assert (Hcc : Card_eqb c c = true) by (apply Card_eqb_eq; reflexivity).
        rewrite Hcc in H. lia.
Qed.

(** X2: a put of cards that the hand holds at least as often as the series
    names them executes: [PutAction._execute] returns.  Every [pop] of its
    loop then asks for a card that is held, so the statement does not
    depend on what [Hand.pop] does with a card that is not.  A player
    without a team is outside this statement. *)
Theorem PutAction__execute_returns_if_held (f : Frame PutAction) (c : TeamColor) :
  team (fr_player f) = Some c ->
  (forall x, (copies x (cards (series (fr_self f)))
              <= copies x (hand (fr_player f)))%nat) ->
  exists f', PutAction__execute f = (Returned tt, f').
Proof.
  intros Hteam Hheld.
  destruct (pop_all_outcome (cards (series (fr_self f))) f)
    as (r & f1 & Hrun & _ & _ & Ht & Hiff & _).
  apply Hiff in Hheld. subst r.
  unfold PutAction__execute, bind at 1, gets at 1. cbv beta iota.
  unfold bind at 1. rewrite Hrun.
  unfold bind at 1, get_series_for_player, bind at 1, gets at 1. cbv beta iota.
  rewrite Ht, Hteam. unfold ret at 1. cbv beta iota.
  unfold append_series, bind, gets, modify. cbv beta iota.
  eexists. reflexivity.
Qed.

Lemma with_hand_with_hand (p : Player) (h1 h2 : Hand) :
  with_hand (with_hand p h1) h2 = with_hand p h2.
Proof. reflexivity. Qed.

Lemma pop_from_hand_frame {A} (c x : Card) (f f' : Frame A) :
  pop_from_hand c f = (Returned x, f') ->
  exists h', f' = set_player (with_hand (fr_player f) h') f.
Proof.
  unfold pop_from_hand, bind, gets, modify, ret.
  destruct (Hand_pop (hand (fr_player f)) c) as [[y h'] |]; [| discriminate].
  intro H. inversion H; subst. exists h'. reflexivity.
Qed.

Lemma pop_all_frame (cs : list Card) (f f' : Frame PutAction) :
  pop_all cs f = (Returned tt, f') ->
  exists h', f' = set_player (with_hand (fr_player f) h') f.
Proof.
  revert f. induction cs as [| c rest IH]; intros f H; simpl in H.
  - inversion H; subst. exists (hand (fr_player f')).
    destruct f' as [a [k i h t] b]. reflexivity.
  - bind_inv H as x f1 Hpop.
    destruct (pop_from_hand_frame _ _ _ _ Hpop) as [h1 ->].
    destruct (IH _ H) as [h2 ->]. exists h2. reflexivity.
Qed.

Lemma Permutation_len {A} (l1 l2 : list A) :
  Permutation l1 l2 -> len l1 = len l2.
Proof. intro H. unfold len. rewrite (Permutation_length H). reflexivity. Qed.

(** What a [PutAction._execute] that returns leaves behind. *)
Lemma PutAction__execute_frame (f f' : Frame PutAction) (c : TeamColor) :
  team (fr_player f) = Some c ->
  PutAction__execute f = (Returned tt, f') ->
  exists h',
    f' = mkFrame (fr_self f)
                 (with_hand (fr_player f) h')
                 (with_series (fr_board f) c
                    (series_of (fr_board f) c ++ [series (fr_self f)]))
    /\ Permutation (hand (fr_player f)) (cards (series (fr_self f)) ++ h')
    /\ len h' = num_cards (fr_player f) - len (cards (series (fr_self f))).
Proof.
  intros Hteam Hexec. unfold PutAction__execute in Hexec.
  bind_inv Hexec as a f0 Ha. inversion Ha; subst a f0; clear Ha.
  bind_inv Hexec as u f1 Hpop. destruct u.
  destruct (pop_all_run _ _ _ Hpop) as (Hperm & _ & _ & _).
  destruct (pop_all_frame _ _ _ Hpop) as [h' ->]. simpl in Hperm.
  bind_inv Hexec as c' f2 Hc.
  unfold get_series_for_player, bind, gets in Hc. simpl in Hc. rewrite Hteam in Hc.
  inversion Hc; subst c' f2; clear Hc.
  unfold append_series, bind, gets, modify in Hexec.
  inversion Hexec; subst f'; clear Hexec.
  exists h'. split; [reflexivity |]. split; [exact Hperm |].
  apply Permutation_len in Hperm. unfold num_cards. rewrite Hperm.
  unfold len. rewrite length_app. lia.
Qed.

(** X3: a [PutAction._execute] that returns changes two things only: the
    hand loses the cards of the series, one copy for each, and the series
    is added at the end of the series of the player's team.  The deck, the
    piles, the stack, the phase, the other team's series, the action and
    the rest of the player are as before. *)
Theorem PutAction__execute_effect (f f' : Frame PutAction) (c : TeamColor) :
  team (fr_player f) = Some c ->
  PutAction__execute f = (Returned tt, f') ->
  exists h',
    f' = mkFrame (fr_self f)
                 (with_hand (fr_player f) h')
                 (with_series (fr_board f) c
                    (series_of (fr_board f) c ++ [series (fr_self f)]))
    /\ Permutation (hand (fr_player f)) (cards (series (fr_self f)) ++ h')
    /\ len h' = num_cards (fr_player f) - len (cards (series (fr_self f))).
Proof.
  intros Hteam Hexec. exact (PutAction__execute_frame f f' c Hteam Hexec).
Qed.

(** X4: after a validated put that executes, the phase the action reports
    is the no-cards phase when the series was the whole hand and the action
    phase otherwise, never an end-turn phase; and the hand can only have
    been emptied if [player_may_clear_hand] allowed it. *)
Theorem PutAction_clears_hand_only_if_allowed (verbose : bool) (f f' : Frame PutAction) :
  PutAction_validate verbose f = (Returned true, f) ->
  PutAction__execute f = (Returned tt, f') ->
  exists ph,
    PutAction__target_phase f' = (Returned ph, f')
    /\ (ph = NO_CARDS_PHASE \/ ph = ACTION_PHASE)
    /\ (ph = NO_CARDS_PHASE <->
        num_cards (fr_player f) = len (cards (series (fr_self f))))
    /\ (ph = NO_CARDS_PHASE ->
        player_may_clear_hand (fr_board f) (fr_player f) (fr_self f) = true).
Proof.
  intros Hvalid Hexec.
  assert (Hclear : num_cards (fr_player f) <= len (cards (series (fr_self f))) + 1 ->
                   player_may_clear_hand (fr_board f) (fr_player f) (fr_self f) = true).
  { rewrite PutAction_validate_run in Hvalid. injection Hvalid as Hv.
    repeat (apply andb_true_iff in Hv; destruct Hv as [Hv ?]).
    intro Hfew. apply Z.leb_le in Hfew.
    match goal with Hn : negb ((num_cards _ <=? _) && _) = true |- _ =>
      rewrite Hfew in Hn; simpl in Hn; apply negb_true_iff in Hn;
      apply negb_false_iff in Hn; exact Hn end. }
  assert (Hteam : exists c, team (fr_player f) = Some c).
  { unfold PutAction__execute in Hexec.
    bind_inv Hexec as a f0 Ha. inversion Ha; subst a f0; clear Ha.
    bind_inv Hexec as u f1 Hpop. destruct u.
    destruct (pop_all_run _ _ _ Hpop) as (_ & Ht & _ & _).
    bind_inv Hexec as c' f2 Hc.
    unfold get_series_for_player, bind, gets in Hc. rewrite Ht in Hc.
    destruct (team (fr_player f)) as [c |]; [exists c; reflexivity | discriminate Hc]. }
  destruct Hteam as [c Hteam].
  destruct (PutAction__execute_frame f f' c Hteam Hexec) as (h' & -> & _ & Hlen).
  unfold PutAction__target_phase, bind, gets, ret. simpl.
  destruct h' as [| x h']; simpl.
  - exists NO_CARDS_PHASE. split; [reflexivity |]. split; [left; reflexivity |].
    unfold len in Hlen at 1. simpl in Hlen.
    split; [split; [intros _; lia | reflexivity] |].
    intros _. apply Hclear. lia.
  - exists ACTION_PHASE. split; [reflexivity |]. split; [right; reflexivity |].
    unfold len in Hlen at 1. simpl in Hlen.
    split; [split; [discriminate | intro; lia] | discriminate].
Qed.

(** X5: a validated discard always executes.  The card leaves the hand and
    lies on top of the stack, nothing else changes, and the phase the
    action then reports is the no-cards end-turn phase when the card was
    the player's last one and the end-turn phase otherwise. *)
Theorem DiscardCardAction_validated_effect (verbose : bool) (f : Frame DiscardCardAction) :
  DiscardCardAction_validate verbose f = (Returned true, f) ->
  exists h' f',
    DiscardCardAction__execute f = (Returned tt, f')
    /\ f' = mkFrame (fr_self f)
                    (with_hand (fr_player f) h')
                    (with_stack (fr_board f)
                       (discard_card (fr_self f) :: stack (fr_board f)))
    /\ Permutation (hand (fr_player f)) (discard_card (fr_self f) :: h')
    /\ DiscardCardAction__target_phase f'
       = (Returned (if num_cards (fr_player f) =? 1
                    then NO_CARDS_END_TURN_PHASE else END_TURN_PHASE), f').
Proof.
  rewrite DiscardCardAction_validate_run. intro H. injection H as Hv.
  apply andb_true_iff in Hv. destruct Hv as [_ Hheld].
  destruct (pop_from_hand_returns _ f Hheld) as (h' & Hpop & Hrun).
  destruct (Hand_pop_Some _ _ _ _ Hpop) as [_ Hperm].
  exists h'. eexists. split; [| split; [reflexivity | split; [exact Hperm |]]].
  - unfold DiscardCardAction__execute, bind at 1, gets at 1. cbv beta iota.
    unfold bind at 1. rewrite Hrun.
    unfold bind, gets, modify, Stack_put. reflexivity.
  - unfold DiscardCardAction__target_phase, bind, gets, ret. simpl.
    apply Permutation_len in Hperm. unfold num_cards. rewrite Hperm.
    destruct h' as [| x h'].
    + reflexivity.
    + unfold len. simpl List.length.
      destruct (Z.of_nat (S (S (List.length h'))) =? 1) eqn:E;
        [apply Z.eqb_eq in E; lia | reflexivity].
Qed.

(** *** Setting up a game *)

Lemma bind_eq {S A B} (m : M S A) (k : A -> M S B) (s s1 : S) (a : A) :
  m s = (Returned a, s1) -> bind m k s = k a s1.
Proof. intro H. unfold bind. rewrite H. reflexivity. Qed.

Lemma bind_raise {S A B} (m : M S A) (k : A -> M S B) (s s1 : S) (e : exn) :
  m s = (Raised e, s1) -> bind m k s = (Raised e, s1).
Proof. intro H. unfold bind. rewrite H. reflexivity. Qed.

(** What [initialize_game] does to a game that is not initialized: it
    deals and returns, or the deck runs out and it raises. *)
Lemma initialize_game_outcome (g : Game) :
  initialized g = false ->
  match deal_all shuffled_double_deck with
  | Some (hs, lp, rp, c, d) =>
      initialize_game g = (Returned tt, dealt_game g hs lp rp c d)
  | None =>
      exists g', initialize_game g = (Raised IndexError, g')
                 /\ initialized g' = false /\ history g' = history g
  end.
Proof.
  intro Hinit. unfold initialize_game, deal_all.
  erewrite bind_eq by reflexivity. rewrite Hinit. cbv [negb].
  do 2 (erewrite bind_eq by reflexivity).
  erewrite bind_eq by apply _initialize_players_run.
  erewrite bind_eq by reflexivity.
  destruct (deal_hands (List.length seated_players) shuffled_double_deck)
    as [[hs d0] |] eqn:Ehands.
  - erewrite bind_eq
      by (unfold _deal_hands; erewrite bind_eq by reflexivity;
          erewrite bind_eq by reflexivity; cbv beta; simpl players;
          rewrite Ehands; erewrite bind_eq by reflexivity; reflexivity).
    unfold _initialize_board.
    destruct (Deck_deal_n d0 NUM_CARDS_IN_PILE) as [[lp d1] |] eqn:El.
    + destruct (Deck_deal_n d1 NUM_CARDS_IN_PILE) as [[rp d2] |] eqn:Er.
      * erewrite bind_eq by reflexivity.
        unfold _initialize_board_stack.
        destruct d2 as [| c d3]; simpl Deck_deal.
        -- eexists. split; [| split].
           ++ erewrite bind_raise; [reflexivity |].
              erewrite bind_eq by reflexivity. reflexivity.
           ++ simpl. exact Hinit.
           ++ reflexivity.
        -- erewrite bind_eq
             by (erewrite bind_eq by reflexivity; simpl;
                 erewrite bind_eq by reflexivity;
                 erewrite bind_eq by reflexivity; reflexivity).
           do 4 (erewrite bind_eq by reflexivity).
           destruct g as [ps ts cpi cti bd kh hist init]. simpl.
           destruct kh; reflexivity.
      * eexists. split; [| split].
        -- erewrite bind_raise; reflexivity.
        -- simpl. exact Hinit.
        -- reflexivity.
    + eexists. split; [| split].
      * erewrite bind_raise; reflexivity.
      * simpl. exact Hinit.
      * reflexivity.
  - eexists. split; [| split].
    + erewrite bind_raise; [reflexivity |].
      unfold _deal_hands. erewrite bind_eq by reflexivity.
      erewrite bind_eq by reflexivity. cbv beta. simpl players.
      rewrite Ehands. reflexivity.
    + simpl. exact Hinit.
    + reflexivity.
Qed.

Lemma Deck_deal_n_cases (d : Deck) (n : Z) :
  match Deck_deal_n d n with
  | Some (cs, d') =>
      List.length cs = Z.to_nat n /\ List.length d = (Z.to_nat n + List.length d')%nat
  | None => (List.length d < Z.to_nat n)%nat
  end.
Proof.
  unfold Deck_deal_n. destruct (Z.to_nat n <=? List.length d)%nat eqn:E.
  - apply Nat.leb_le in E. rewrite length_firstn, length_skipn. lia.
  - apply Nat.leb_gt in E. exact E.
Qed.

Lemma deal_hands_cases (k : nat) (d : Deck) :
  match deal_hands k d with
  | Some (hs, d') =>
      List.length hs = k
      /\ Forall (fun h => List.length h = Z.to_nat NUM_CARDS_IN_STARTING_HAND) hs
      /\ List.length d = (k * Z.to_nat NUM_CARDS_IN_STARTING_HAND + List.length d')%nat
  | None => (List.length d < k * Z.to_nat NUM_CARDS_IN_STARTING_HAND)%nat
  end.
Proof.
  revert d. induction k as [| k IH]; intro d; simpl.
  - repeat split. constructor.
  - pose proof (Deck_deal_n_cases d NUM_CARDS_IN_STARTING_HAND) as Hn.
    destruct (Deck_deal_n d NUM_CARDS_IN_STARTING_HAND) as [[h d1] |].
    + destruct Hn as [Hh Hd]. specialize (IH d1).
      destruct (deal_hands k d1) as [[hs d2] |].
      * destruct IH as (Hlen & Hall & Hd1). repeat split.
        -- simpl. rewrite Hlen. reflexivity.
        -- constructor; assumption.
        -- lia.
      * lia.
    + lia.
Qed.

(** The number of cards [initialize_game] takes from the deck. *)
Lemma deal_all_cases (d : Deck) :
  match deal_all d with
  | Some (hs, lp, rp, c, d') =>
      List.length hs = 4%nat
      /\ Forall (fun h => List.length h = Z.to_nat NUM_CARDS_IN_STARTING_HAND) hs
      /\ List.length lp = Z.to_nat NUM_CARDS_IN_PILE
      /\ List.length rp = Z.to_nat NUM_CARDS_IN_PILE
      /\ List.length d = (4 * Z.to_nat NUM_CARDS_IN_STARTING_HAND
                          + 2 * Z.to_nat NUM_CARDS_IN_PILE + 1 + List.length d')%nat
  | None =>
      (List.length d < 4 * Z.to_nat NUM_CARDS_IN_STARTING_HAND
                       + 2 * Z.to_nat NUM_CARDS_IN_PILE + 1)%nat
  end.
Proof.
  unfold deal_all.
  pose proof (deal_hands_cases (List.length seated_players) d) as Hh.
  change (List.length seated_players) with 4%nat in *.
  destruct (deal_hands 4 d) as [[hs d0] |]; [| lia].
  destruct Hh as (Hlen & Hall & Hd).
  pose proof (Deck_deal_n_cases d0 NUM_CARDS_IN_PILE) as Hl.
  destruct (Deck_deal_n d0 NUM_CARDS_IN_PILE) as [[lp d1] |]; [| lia].
  destruct Hl as [Hlp Hd0].
  pose proof (Deck_deal_n_cases d1 NUM_CARDS_IN_PILE) as Hr.
  destruct (Deck_deal_n d1 NUM_CARDS_IN_PILE) as [[rp d2] |]; [| lia].
  destruct Hr as [Hrp Hd1].
  destruct d2 as [| c d3]; simpl in *.
  - lia.
  - repeat split; try assumption. lia.
Qed.

(** X6: on a game that is not initialized, [initialize_game] returns when
    the shuffled deck holds at least four starting hands, two piles and one
    card for the stack, and the game is then initialized.  Every [deal_n]
    and [deal] then asks for cards the deck has, so the statement does not
    depend on what a deck does when it runs out. *)
Theorem initialize_game_returns_if_enough (g : Game) :
  initialized g = false ->
  (4 * Z.to_nat NUM_CARDS_IN_STARTING_HAND + 2 * Z.to_nat NUM_CARDS_IN_PILE + 1
   <= List.length shuffled_double_deck)%nat ->
  exists g', initialize_game g = (Returned tt, g') /\ initialized g' = true.
Proof.
  intros Hinit Henough.
  pose proof (initialize_game_outcome g Hinit) as Hrun.
  pose proof (deal_all_cases shuffled_double_deck) as Hcases.
  destruct (deal_all shuffled_double_deck) as [[[[[hs lp] rp] c] d] |].
  - eexists. split; [exact Hrun | reflexivity].
  - lia.
Qed.

(** The game a returning [initialize_game] makes. *)
Lemma initialize_game_dealt (g g' : Game) :
  initialized g = false ->
  initialize_game g = (Returned tt, g') ->
  exists hs lp rp c d,
    g' = dealt_game g hs lp rp c d
    /\ List.length hs = 4%nat
    /\ Forall (fun h => List.length h = Z.to_nat NUM_CARDS_IN_STARTING_HAND) hs
    /\ List.length lp = Z.to_nat NUM_CARDS_IN_PILE
    /\ List.length rp = Z.to_nat NUM_CARDS_IN_PILE
    /\ shuffled_double_deck = List.concat hs ++ lp ++ rp ++ c :: d.
Proof.
  intros Hinit Hrun.
  pose proof (initialize_game_outcome g Hinit) as Hout.
  pose proof (deal_all_cases shuffled_double_deck) as Hcases.
  unfold deal_all in Hout, Hcases.
  destruct (deal_hands (List.length seated_players) shuffled_double_deck)
    as [[hs d0] |] eqn:Ehands;
    [| destruct Hout as (g2 & Hout & _); rewrite Hout in Hrun; discriminate Hrun].
  destruct (Deck_deal_n d0 NUM_CARDS_IN_PILE) as [[lp d1] |] eqn:El;
    [| destruct Hout as (g2 & Hout & _); rewrite Hout in Hrun; discriminate Hrun].
  destruct (Deck_deal_n d1 NUM_CARDS_IN_PILE) as [[rp d2] |] eqn:Er;
    [| destruct Hout as (g2 & Hout & _); rewrite Hout in Hrun; discriminate Hrun].
  destruct d2 as [| c d3]; simpl in Hout, Hcases;
    [destruct Hout as (g2 & Hout & _); rewrite Hout in Hrun; discriminate Hrun |].
  rewrite Hout in Hrun. inversion Hrun; subst g'.
  destruct Hcases as (Hlen & Hall & Hlp & Hrp & _).
  exists hs, lp, rp, c, d3. repeat split; try assumption.
  destruct (deal_hands_Some _ _ _ _ Ehands) as [_ ->].
  apply Deck_deal_n_Some in El, Er. subst. reflexivity.
Qed.

(** X7: when [initialize_game] returns on a game that was not initialized,
    the game is the dealt game: four players, seats 0 and 2 in the red team
    and seats 1 and 3 in the blue team, each with a starting hand; two
    piles of the pile size; one card on the stack; no series; both indices
    0; the draw phase; the initialized flag set; and one more history entry
    without an action when the history is kept.  The cards dealt and the
    deck that is left are together the cards of the shuffled deck, in
    whatever order they were dealt. *)
Theorem initialize_game_deals (g g' : Game) :
  initialized g = false ->
  initialize_game g = (Returned tt, g') ->
  exists hs lp rp c d,
    g' = dealt_game g hs lp rp c d
    /\ List.length hs = 4%nat
    /\ Forall (fun h => List.length h = Z.to_nat NUM_CARDS_IN_STARTING_HAND) hs
    /\ List.length lp = Z.to_nat NUM_CARDS_IN_PILE
    /\ List.length rp = Z.to_nat NUM_CARDS_IN_PILE
    /\ Permutation shuffled_double_deck (List.concat hs ++ lp ++ rp ++ c :: d).
Proof.
  intros Hinit Hrun.
  destruct (initialize_game_dealt g g' Hinit Hrun)
    as (hs & lp & rp & c & d & Hg & Hlen & Hall & Hlp & Hrp & Hdeck).
  exists hs, lp, rp, c, d. rewrite <- Hdeck.
  repeat split; try assumption. apply Permutation_refl.
Qed.

Lemma initialize_game_initialized (g : Game) :
  initialized g = true -> initialize_game g = (Returned tt, g).
Proof.
  intro H. unfold initialize_game. erewrite bind_eq by reflexivity.
  rewrite H. reflexivity.
Qed.

(** X8: [initialize_game] is idempotent: once it has returned, a second
    call returns without changing anything. *)
Theorem initialize_game_idempotent (g g1 : Game) :
  initialize_game g = (Returned tt, g1) ->
  initialize_game g1 = (Returned tt, g1).
Proof.
  intro Hrun. apply initialize_game_initialized.
  destruct (initialized g) eqn:Hinit.
  - rewrite (initialize_game_initialized g Hinit) in Hrun.
    inversion Hrun; subst. exact Hinit.
  - destruct (initialize_game_dealt g g1 Hinit Hrun) as (hs & lp & rp & c & d & -> & _).
    reflexivity.
Qed.

(** *** Turn order and history *)

Lemma call_player_any (p : Player) (st : GameState) (verbose : bool) (g : Game) :
  same_counters g (snd (call_player p st verbose g))
  /\ history (snd (call_player p st verbose g)) = history g.
Proof.
  unfold call_player, same_counters.
  destruct (board g) as [b |]; [| simpl; auto].
  destruct (players g) as [ps |]; [| simpl; auto].
  destruct (teams g) as [ts |]; [| simpl; auto].
  destruct (Player_play_single_step p st verbose (mkTable b ps ts)) as [o t].
  simpl. auto.
Qed.

Lemma ask_current_player_any (verbose : bool) (g : Game) :
  same_counters g (snd (ask_current_player verbose g))
  /\ history (snd (ask_current_player verbose g)) = history g.
Proof.
  unfold ask_current_player, bind.
  rewrite (ReadOnly_run current_player g current_player_ReadOnly).
  destruct (fst (current_player g)) as [p | e];
    [| unfold same_counters; simpl; auto].
  rewrite (ReadOnly_run get_state g get_state_ReadOnly).
  destruct (fst (get_state g)) as [st | e];
    [| unfold same_counters; simpl; auto].
  apply call_player_any.
Qed.

Lemma in_step_next (i : Z) :
  0 <= i < NUM_PLAYERS ->
  0 <= (i + 1) mod NUM_PLAYERS < NUM_PLAYERS
  /\ (i mod NUM_TEAMS + 1) mod NUM_TEAMS = ((i + 1) mod NUM_PLAYERS) mod NUM_TEAMS.
Proof.
  unfold NUM_PLAYERS, NUM_TEAMS. intro H.
  assert (Hi : i = 0 \/ i = 1 \/ i = 2 \/ i = 3) by lia.
  destruct Hi as [-> | [-> | [-> | ->]]]; vm_compute; repeat split; easy.
Qed.

(** The state a step has reached when it comes to its last statement. *)
Lemma play_single_step_shape (verbose : bool) (g g' : Game) (r : outcome unit) :
  play_single_step verbose g = (r, g') ->
  exists g2 l,
    same_counters g g2
    /\ history g2 = history g ++ l
    /\ (List.length l <= 1)%nat
    /\ (keep_history g = false -> l = [])
    /\ (g' = g2
        \/ (exists b, board g2 = Some b) /\ _next_player_turn g2 = (r, g')).
Proof.
  assert (Hrefl : same_counters g g) by (unfold same_counters; auto).
  assert (Hstay : forall g0, g0 = g ->
            exists g2 l,
              same_counters g g2 /\ history g2 = history g ++ l
              /\ (List.length l <= 1)%nat /\ (keep_history g = false -> l = [])
              /\ (g0 = g2 \/ (exists b, board g2 = Some b)
                              /\ _next_player_turn g2 = (r, g0))).
  { intros g0 ->. exists g, []. rewrite app_nil_r.
    split; [exact Hrefl |]. split; [reflexivity |]. split; [simpl; lia |].
    split; [reflexivity |]. left. reflexivity. }
  intro H. unfold play_single_step in H.
  erewrite bind_eq in H by reflexivity.
  destruct (initialized g); [| inversion H; subst; apply Hstay; reflexivity].
  cbv [negb] in H. unfold bind at 1 in H.
  rewrite (ReadOnly_run is_finished g is_finished_ReadOnly) in H.
  destruct (fst (is_finished g)) as [[|] | e];
    try solve [inversion H; subst; apply Hstay; reflexivity].
  unfold bind at 1 in H.
  destruct (ask_current_player_any verbose g) as [Hsame Hhist].
  destruct (ask_current_player verbose g) as [[action | e] g1]; simpl in Hsame, Hhist.
  - erewrite bind_eq in H by reflexivity.
    destruct Hsame as (Hi & Hj & Hkh & Hinit).
    rewrite Hkh in H.
    set (g2 := if keep_history g then snd (history_add action g1) else g1) in *.
    assert (Hrec : (if keep_history g then history_add action else ret tt) g1
                   = (Returned tt, g2)).
    { subst g2. destruct (keep_history g); reflexivity. }
    erewrite bind_eq in H by exact Hrec.
    exists g2, (if keep_history g
                then [(mkSnapshot (players g1) (teams g1) (current_player_index g1)
                                  (current_team_index g1) (board g1), action)]
                else []).
    split; [| split; [| split; [| split]]].
    + subst g2. unfold same_counters.
      destruct (keep_history g) eqn:E; simpl; rewrite ?Hi, ?Hj, ?Hkh, ?Hinit; auto.
    + subst g2. destruct (keep_history g); simpl; rewrite Hhist;
        [reflexivity | rewrite app_nil_r; reflexivity].
    + destruct (keep_history g); simpl; lia.
    + intros ->. reflexivity.
    + unfold bind, attr in H.
      destruct (board g2) as [b |] eqn:Hb2; [| inversion H; left; reflexivity].
      destruct (GamePhase_eqb (phase b) END_TURN_PHASE).
      * right. split; [exists b; reflexivity | exact H].
      * inversion H. left. reflexivity.
  - inversion H; subst. exists g', []. rewrite app_nil_r.
    split; [exact Hsame |]. split; [exact Hhist |]. split; [simpl; lia |].
    split; [reflexivity |]. left. reflexivity.
Qed.

Lemma _next_player_turn_any (g g' : Game) (r : outcome unit) :
  _next_player_turn g = (r, g') ->
  history g' = history g /\ keep_history g' = keep_history g
  /\ initialized g' = initialized g
  /\ players g' = players g /\ teams g' = teams g.
Proof.
  unfold _next_player_turn, bind, gets, modify, increment, modulo, attr.
  destruct g as [ps ts cpi cti bd kh hist init]. simpl.
  destruct cpi as [i |]; simpl; [| intro H; inversion H; subst; simpl; auto].
  destruct cti as [j |]; simpl; [| intro H; inversion H; subst; simpl; auto].
  destruct bd as [b |]; intro H; inversion H; subst; simpl; auto.
Qed.

Lemma same_counters_in_step (g g2 : Game) :
  same_counters g g2 -> in_step g -> in_step g2.
Proof.
  intros (Hi & Hj & _ & _) (i & Hcpi & Hrange & Hcti).
  exists i. rewrite Hi, Hj. auto.
Qed.

(** X9: the turn counters stay in step.  After [initialize_game], and after
    every [play_single_step] however it ends and whatever the players do,
    the player index is one of 0..3 and the team index is its parity, so
    [current_team] is the team the current seat was put in. *)
Theorem turn_counters_stay_in_step :
  (forall g g', initialized g = false ->
                initialize_game g = (Returned tt, g') -> in_step g')
  /\ (forall verbose g r g',
        in_step g -> play_single_step verbose g = (r, g') -> in_step g').
Proof.
  split.
  - intros g g' Hinit Hrun.
    destruct (initialize_game_dealt g g' Hinit Hrun) as (hs & lp & rp & c & d & -> & _).
    exists 0. simpl. repeat split; try reflexivity; unfold NUM_PLAYERS; lia.
  - intros verbose g r g' Hstep Hrun.
    destruct (play_single_step_shape verbose g g' r Hrun)
      as (g2 & l & Hsame & _ & _ & _ & [-> | [[b Hb] Hturn]]).
    + exact (same_counters_in_step g g2 Hsame Hstep).
    + pose proof (same_counters_in_step g g2 Hsame Hstep) as (i & Hi & Hrange & Hj).
      rewrite (_next_player_turn_run g2 i (i mod NUM_TEAMS) b Hi Hj Hb) in Hturn.
      inversion Hturn; subst g'.
      destruct (in_step_next i Hrange) as [Hrange' Hpar].
      exists ((i + 1) mod NUM_PLAYERS). simpl.
      split; [reflexivity |]. split; [exact Hrange' |]. rewrite Hpar. reflexivity.
Qed.

(** X10: [play_single_step] only ever appends to the history: however the
    step ends, the old entries are still there in order, at most one entry
    has been added, none when the history is not kept; the [keep_history]
    and [initialized] flags are never changed. *)
Theorem play_single_step_history (verbose : bool) (g : Game) :
  exists l,
    history (snd (play_single_step verbose g)) = history g ++ l
    /\ (List.length l <= 1)%nat
    /\ (keep_history g = false -> l = [])
    /\ keep_history (snd (play_single_step verbose g)) = keep_history g
    /\ initialized (snd (play_single_step verbose g)) = initialized g.
Proof.
  destruct (play_single_step verbose g) as [r g'] eqn:Hrun. simpl.
  destruct (play_single_step_shape verbose g g' r Hrun)
    as (g2 & l & (_ & _ & Hkh & Hinit) & Hhist & Hlen & Hnone & [-> | [_ Hturn]]).
  - exists l. auto.
  - destruct (_next_player_turn_any g2 g' r Hturn) as (Hh & Hk & Hi & _ & _).
    exists l. rewrite Hh, Hk, Hi. auto.
Qed.

(** X11: when the player that is asked raises (or the current player or
    the state cannot be obtained), [play_single_step] raises the same
    exception: nothing is logged, the turn does not pass, and the game is
    left as the failing call left it. *)
Theorem play_single_step_player_raises (verbose : bool) (g g1 : Game) (e : exn) :
  initialized g = true ->
  fst (is_finished g) = Returned false ->
  ask_current_player verbose g = (Raised e, g1) ->
  play_single_step verbose g = (Raised e, g1)
  /\ history g1 = history g
  /\ current_player_index g1 = current_player_index g
  /\ current_team_index g1 = current_team_index g.
Proof.
  intros Hinit Hfin Hask.
  destruct (ask_current_player_any verbose g) as [(Hi & Hj & _ & _) Hhist].
  rewrite Hask in Hi, Hj, Hhist. simpl in Hi, Hj, Hhist.
  split; [| auto].
  unfold play_single_step. erewrite bind_eq by reflexivity. rewrite Hinit.
  cbv [negb]. unfold bind at 1.
  rewrite (ReadOnly_run is_finished g is_finished_ReadOnly), Hfin.
  cbv [negb]. erewrite bind_raise by exact Hask. reflexivity.
Qed.

Lemma turns_run (n : nat) (g : Game) (i j : Z) (b : Board) :
  current_player_index g = Some i ->
  current_team_index g = Some j ->
  board g = Some b ->
  (0 < n)%nat ->
  turns n g =
  (Returned tt,
   set_game_board (Some (set_phase b DRAW_PHASE))
     (set_current_team_index (Some ((j + Z.of_nat n) mod NUM_TEAMS))
        (set_current_player_index (Some ((i + Z.of_nat n) mod NUM_PLAYERS)) g))).
Proof.
  revert g i j b. induction n as [| n IH]; intros g i j b Hi Hj Hb Hn; [lia |].
  simpl turns. erewrite bind_eq by (apply (_next_player_turn_run g i j b); assumption).
  destruct n as [| n].
  - simpl. reflexivity.
  - rewrite (IH _ ((i + 1) mod NUM_PLAYERS) ((j + 1) mod NUM_TEAMS)
               (set_phase b DRAW_PHASE)); try reflexivity; [| lia].
    destruct g as [ps ts cpi cti bd kh hist init]. simpl.
    unfold set_game_board, set_current_team_index, set_current_player_index. simpl.
    f_equal. f_equal.
    + f_equal. rewrite Z.add_mod_idemp_l by (unfold NUM_PLAYERS; lia).
      f_equal. lia.
    + f_equal. rewrite Z.add_mod_idemp_l by (unfold NUM_TEAMS; lia).
      f_equal. lia.
Qed.

Lemma mod_back (k i n : Z) :
  0 < k -> 0 <= i < k -> ((i + n) mod k = i <-> n mod k = 0).
Proof.
  intros Hk Hi. split; intro H.
  - rewrite <- (Z.mod_small i k) in H at 2 by lia.
    assert (Hz : ((i + n) - i) mod k = 0).
    { rewrite Zminus_mod, H, Z.sub_diag. apply Z.mod_0_l. lia. }
    replace (i + n - i) with n in Hz by lia. exact Hz.
  - rewrite Z.add_mod by lia. rewrite H, Z.add_0_r, Z.mod_mod by lia.
    apply Z.mod_small. exact Hi.
Qed.

(** X12: [n] turns passed in a row return and leave the board in the draw
    phase; the player index is back at its start exactly when [n] is a
    multiple of four and the team index exactly when [n] is even; the
    players, the teams and the history are not touched. *)
Theorem turns_cycle (n : nat) (g : Game) (i j : Z) (b : Board) :
  current_player_index g = Some i -> 0 <= i < NUM_PLAYERS ->
  current_team_index g = Some j -> 0 <= j < NUM_TEAMS ->
  board g = Some b ->
  (0 < n)%nat ->
  exists g',
    turns n g = (Returned tt, g')
    /\ (current_player_index g' = Some i <-> Z.of_nat n mod NUM_PLAYERS = 0)
    /\ (current_team_index g' = Some j <-> Z.of_nat n mod NUM_TEAMS = 0)
    /\ board g' = Some (set_phase b DRAW_PHASE)
    /\ players g' = players g /\ teams g' = teams g /\ history g' = history g.
Proof.
  intros Hi Hri Hj Hrj Hb Hn.
  eexists. split; [apply (turns_run n g i j b); assumption |]. simpl.
  repeat split; try reflexivity.
  - intro H. injection H as H. apply (mod_back NUM_PLAYERS i) in H;
      [exact H | unfold NUM_PLAYERS; lia | exact Hri].
  - intro H. f_equal. apply (mod_back NUM_PLAYERS i);
      [unfold NUM_PLAYERS; lia | exact Hri | exact H].
  - intro H. injection H as H. apply (mod_back NUM_TEAMS j) in H;
      [exact H | unfold NUM_TEAMS; lia | exact Hrj].
  - intro H. f_equal. apply (mod_back NUM_TEAMS j);
      [unfold NUM_TEAMS; lia | exact Hrj | exact H].
Qed.

(** X13: a game that [initialize_game] has just dealt is finished only by
    the empty-deck rule: [is_finished] returns, and its answer is whether
    the deck is empty and no pile remains; no player can have finished,
    as no team has grabbed a pile. *)
Theorem fresh_game_finished_by_deck_only (g g' : Game) :
  initialized g = false ->
  initialize_game g = (Returned tt, g') ->
  exists b,
    board g' = Some b
    /\ is_finished g'
       = (Returned (Deck_is_empty (deck b) && (num_piles_remaining b =? 0)), g').
Proof.
  intros Hinit Hrun.
  destruct (initialize_game_dealt g g' Hinit Hrun)
    as (hs & lp & rp & c & d & -> & Hlen & _).
  destruct hs as [| h1 [| h2 [| h3 [| h4 [| h5 hs]]]]]; simpl in Hlen; try discriminate Hlen.
  eexists. split; [reflexivity |].
  unfold is_finished. erewrite bind_eq by reflexivity.
  match goal with
  | |- (if ?c then _ else _) _ = (Returned ?c', _) => change c' with c; destruct c eqn:Hc
  end; [reflexivity |].
  erewrite bind_eq by reflexivity. erewrite bind_eq by reflexivity.
  erewrite some_player_finished_run; [| reflexivity |].
  { f_equal. f_equal. simpl. unfold player_finished. simpl.
    rewrite !andb_false_r. reflexivity. }
  intros p Hin _. simpl in Hin.
  destruct Hin as [<- | [<- | [<- | [<- | []]]]];
    [exists RED | exists BLUE | exists RED | exists BLUE];
    eexists; split; reflexivity.
Qed.

(** *** Scores, queries and reset *)

Lemma fold_left_add {A} (f : A -> Z) (l : list A) (a : Z) :
  fold_left (fun acc x => acc + f x) l a = a + fold_right Z.add 0 (map f l).
Proof.
  revert a. induction l as [| x l IH]; intro a; simpl.
  - lia.
  - rewrite IH. lia.
Qed.

Lemma _get_team_score_run (t : Team) (l : list CardSeries) (cs : list Card) (g : Game) :
  _get_team_score (Some t) l cs g =
  (Returned (series_total l + cards_total cs + (if has_grabbed_pile t then 100 else 0)), g).
Proof.
  unfold _get_team_score, bind, receiver, ret, series_total, cards_total.
  rewrite !fold_left_add.
  destruct (has_grabbed_pile t); f_equal; f_equal; lia.
Qed.

Lemma opponent_hands_run (g : Game) (ps : list Player) (refs : list Z) (acc : list Card) :
  players g = Some ps ->
  (forall x, In x refs -> exists p, getitem ps x = Some p) ->
  opponent_hands refs acc g = (Returned (acc ++ hands_of ps refs), g).
Proof.
  intro Hps. revert acc. induction refs as [| x refs IH]; intros acc Hres; simpl.
  - rewrite app_nil_r. reflexivity.
  - destruct (Hres x (or_introl eq_refl)) as [p Hp].
    erewrite bind_eq by reflexivity. rewrite Hps.
    erewrite bind_eq by (unfold subscript; rewrite Hp; reflexivity).
    rewrite IH by (intros y Hy; apply Hres; right; exact Hy).
    rewrite Hp, app_assoc. reflexivity.
Qed.

(** X14: the score of a team is the total value of its series plus 100 when
    it has grabbed a pile; with [include_opponent_cards] it is larger by
    exactly the value of the cards in the hands of the other team's
    players.  Without that flag, as in [get_state], no hand is read.
    Computing a score changes nothing. *)
Theorem team_scores (g : Game) (ps : list Player) (b : Board) (red blue : Team)
    (others : list Team) :
  players g = Some ps ->
  board g = Some b ->
  teams g = Some (red :: blue :: others) ->
  get_red_team_score false g
  = (Returned (series_total (red_team_series b)
               + (if has_grabbed_pile red then 100 else 0)), g)
  /\ get_blue_team_score false g
     = (Returned (series_total (blue_team_series b)
                  + (if has_grabbed_pile blue then 100 else 0)), g)
  /\ ((forall x, In x (team_players blue) -> exists p, getitem ps x = Some p) ->
      get_red_team_score true g
      = (Returned (series_total (red_team_series b)
                   + cards_total (hands_of ps (team_players blue))
                   + (if has_grabbed_pile red then 100 else 0)), g))
  /\ ((forall x, In x (team_players red) -> exists p, getitem ps x = Some p) ->
      get_blue_team_score true g
      = (Returned (series_total (blue_team_series b)
                   + cards_total (hands_of ps (team_players red))
                   + (if has_grabbed_pile blue then 100 else 0)), g)).
Proof.
  intros Hps Hb Hts.
  assert (Hred : red_team g = (Returned (Some red), g)).
  { unfold red_team. erewrite bind_eq by reflexivity. rewrite Hts. reflexivity. }
  assert (Hblue : blue_team g = (Returned (Some blue), g)).
  { unfold blue_team. erewrite bind_eq by reflexivity. rewrite Hts. reflexivity. }
  assert (Hboard : attr board g = (Returned b, g)) by (unfold attr; rewrite Hb; reflexivity).
  repeat split.
  - unfold get_red_team_score. erewrite bind_eq by reflexivity.
    erewrite bind_eq by exact Hred. erewrite bind_eq by exact Hboard.
    rewrite _get_team_score_run. unfold cards_total. simpl. f_equal. f_equal. lia.
  - unfold get_blue_team_score. erewrite bind_eq by reflexivity.
    erewrite bind_eq by exact Hblue. erewrite bind_eq by exact Hboard.
    rewrite _get_team_score_run. unfold cards_total. simpl. f_equal. f_equal. lia.
  - intro Hres. unfold get_red_team_score.
    erewrite bind_eq
      by (erewrite bind_eq by exact Hblue; erewrite bind_eq by reflexivity;
          apply (opponent_hands_run g ps _ [] Hps Hres)).
    erewrite bind_eq by exact Hred. erewrite bind_eq by exact Hboard.
    rewrite _get_team_score_run. reflexivity.
  - intro Hres. unfold get_blue_team_score.
    erewrite bind_eq
      by (erewrite bind_eq by exact Hred; erewrite bind_eq by reflexivity;
          apply (opponent_hands_run g ps _ [] Hps Hres)).
    erewrite bind_eq by exact Hblue. erewrite bind_eq by exact Hboard.
    rewrite _get_team_score_run. reflexivity.
Qed.

(** X15: a game without a board, as before [initialize_game] or after
    [reset_game(initialize=False)], cannot be queried: [is_finished] and
    [get_state] raise [AttributeError]; and without players
    [current_player] raises [TypeError].  The game is left as it is. *)
Theorem queries_need_a_board (g : Game) :
  (board g = None ->
   is_finished g = (Raised AttributeError, g)
   /\ get_state g = (Raised AttributeError, g))
  /\ (players g = None -> current_player g = (Raised TypeError, g)).
Proof.
  split.
  - intro Hb. split.
    + unfold is_finished. erewrite bind_raise; [reflexivity |].
      unfold attr. rewrite Hb. reflexivity.
    + unfold get_state. do 4 (erewrite bind_eq by reflexivity).
      erewrite bind_raise; [reflexivity |].
      unfold get_red_team_score. erewrite bind_eq by reflexivity.
      assert (Hrt : exists t, red_team g = (Returned t, g)).
      { unfold red_team, bind, gets.
        destruct (teams g) as [[| t l] |]; eexists; reflexivity. }
      destruct Hrt as [t Hrt].
      erewrite bind_eq by exact Hrt.
      erewrite bind_raise; [reflexivity |].
      unfold attr. rewrite Hb. reflexivity.
  - intro Hps. unfold current_player.
    do 2 (erewrite bind_eq by reflexivity). rewrite Hps. reflexivity.
Qed.

(** X16: [reset_game] forgets players, teams, indices and board: the game
    is a new [Game] with the same [keep_history] setting, with the old
    history unless it is cleared; and with [initialize] set the result is
    that of [initialize_game] on that new game. *)
Theorem reset_game_starts_over (initialize clear_history : bool) (g : Game) :
  reset_game initialize clear_history g =
  (if initialize then initialize_game else ret tt)
    (set_history (if clear_history then [] else history g)
                 (Game_init (keep_history g))).
Proof.
  unfold reset_game.
  do 5 (erewrite bind_eq by reflexivity).
  destruct g as [ps ts cpi cti bd kh hist init].
  destruct clear_history.
  - erewrite bind_eq by reflexivity. erewrite bind_eq by reflexivity. reflexivity.
  - erewrite bind_eq by reflexivity. erewrite bind_eq by reflexivity. reflexivity.
Qed.

(** *** The registry of running games *)

Lemma dict_get_set_same {V} (d : Dict V) (k : string) (v : V) :
  dict_get (dict_set d k v) k = Some v.
Proof.
  induction d as [| [k' v'] d IH]; simpl.
  - rewrite String.eqb_refl. reflexivity.
  - destruct (String.eqb k k') eqn:E; simpl.
    + rewrite String.eqb_refl. reflexivity.
    + rewrite E. exact IH.
Qed.

Lemma dict_get_set_other {V} (d : Dict V) (k k' : string) (v : V) :
  k' <> k -> dict_get (dict_set d k v) k' = dict_get d k'.
Proof.
  intro Hne. induction d as [| [k0 v0] d IH]; simpl.
  - apply String.eqb_neq in Hne. rewrite Hne. reflexivity.
  - destruct (String.eqb k k0) eqn:E; simpl.
    + apply String.eqb_eq in E. subst k0.
      apply String.eqb_neq in Hne. rewrite Hne. reflexivity.
    + destruct (String.eqb k' k0); [reflexivity | exact IH].
Qed.

Lemma dict_set_length {V} (d : Dict V) (k : string) (v : V) :
  List.length (dict_set d k v)
  = (List.length d + (if dict_contains d k then 0 else 1))%nat.
Proof.
  unfold dict_contains. induction d as [| [k0 v0] d IH]; simpl.
  - reflexivity.
  - destruct (String.eqb k k0); simpl.
    + lia.
    + rewrite IH. destruct (dict_get d k); lia.
Qed.

Lemma dict_get_del_same {V} (d : Dict V) (k : string) :
  dict_get (dict_del d k) k = None.
Proof.
  unfold dict_del. induction d as [| [k0 v0] d IH]; simpl.
  - reflexivity.
  - destruct (String.eqb k k0) eqn:E; simpl.
    + exact IH.
    + rewrite E. exact IH.
Qed.

Lemma dict_get_del_other {V} (d : Dict V) (k k' : string) :
  k' <> k -> dict_get (dict_del d k) k' = dict_get d k'.
Proof.
  intro Hne. unfold dict_del. induction d as [| [k0 v0] d IH]; simpl.
  - reflexivity.
  - destruct (String.eqb k k0) eqn:E; simpl.
    + apply String.eqb_eq in E. subst k0.
      apply String.eqb_neq in Hne. rewrite Hne. exact IH.
    + destruct (String.eqb k' k0); [reflexivity | exact IH].
Qed.

Lemma dict_del_absent {V} (d : Dict V) (k : string) :
  dict_contains d k = false -> dict_del d k = d.
Proof.
  unfold dict_contains, dict_del. induction d as [| [k0 v0] d IH]; simpl.
  - reflexivity.
  - destruct (String.eqb k k0); simpl.
    + discriminate.
    + intro H. rewrite (IH H). reflexivity.
Qed.

(** X17: [start_game] stores a new, not yet initialized game that keeps
    its history under the generated id and returns both; [get_game] then
    finds it, and the games under other ids are not affected.  The id is
    not checked against the ids in use: when it is taken, the running game
    under it is replaced and the number of running games stays the same. *)
Theorem start_game_registers (draws : nat -> nat) (r : GameRunner) :
  exists r',
    start_game draws r = (Returned (generate_new_game_id draws, Game_init true), r')
    /\ get_game (generate_new_game_id draws) r' = (Returned (Some (Game_init true)), r')
    /\ (forall k, k <> generate_new_game_id draws ->
                  fst (get_game k r') = fst (get_game k r))
    /\ List.length (running_games r')
       = (List.length (running_games r)
          + (if dict_contains (running_games r) (generate_new_game_id draws)
             then 0 else 1))%nat.
Proof.
  eexists. split; [reflexivity |]. simpl.
  unfold get_game, bind, gets, ret. simpl.
  split; [rewrite dict_get_set_same; reflexivity |].
  split; [| apply dict_set_length].
  intros k Hk. rewrite (dict_get_set_other _ _ _ _ Hk). reflexivity.
Qed.

(** X18: after [end_game] no game is found under the id, the games under
    other ids are still found, and ending a game that is not running
    changes nothing. *)
Theorem end_game_removes (game_id : string) (r : GameRunner) :
  exists r',
    end_game game_id r = (Returned tt, r')
    /\ get_game game_id r' = (Returned None, r')
    /\ (forall k, k <> game_id -> fst (get_game k r') = fst (get_game k r))
    /\ (dict_contains (running_games r) game_id = false -> r' = r).
Proof.
  unfold end_game, get_game, bind, gets, ret, modify.
  destruct (dict_contains (running_games r) game_id) eqn:E.
  - eexists. split; [reflexivity |]. simpl.
    split; [rewrite dict_get_del_same; reflexivity |].
    split; [| discriminate].
    intros k Hk. rewrite (dict_get_del_other _ _ _ Hk). reflexivity.
  - exists r. split; [reflexivity |]. simpl.
    unfold dict_contains in E.
    destruct (dict_get (running_games r) game_id); [discriminate E |].
    repeat split; reflexivity.
Qed.

Lemma string_of_list_ascii_length (l : list ascii) :
  String.length (string_of_list_ascii l) = List.length l.
Proof. induction l as [| a l IH]; simpl; [reflexivity | rewrite IH; reflexivity]. Qed.

Lemma choice_lowercase (r : nat) :
  exists a, choice ascii_lowercase r = Some a
            /\ (97 <= nat_of_ascii a <= 122)%nat.
Proof.
  assert (Hall : Forall (fun a => (97 <= nat_of_ascii a <= 122)%nat) ascii_lowercase).
  { unfold ascii_lowercase. simpl. repeat constructor. }
  unfold choice.
  change (List.length ascii_lowercase) with 26%nat.
  assert (Hlt : (r mod 26 < List.length ascii_lowercase)%nat)
    by (change (List.length ascii_lowercase) with 26%nat; apply Nat.mod_upper_bound; lia).
  apply nth_error_Some in Hlt.
  destruct (nth_error ascii_lowercase (r mod 26)) as [a |] eqn:E; [| contradiction Hlt; reflexivity].
  exists a. split.
  - reflexivity.
  - rewrite Forall_forall in Hall. apply Hall. apply (nth_error_In _ _ E).
Qed.

Lemma id_characters (draws : nat -> nat) (ks : list Z) :
  List.length
    (flat_map (fun k => match choice ascii_lowercase (draws (Z.to_nat k)) with
                        | Some a => [a]
                        | None => []
                        end) ks) = List.length ks
  /\ Forall (fun a => (97 <= nat_of_ascii a <= 122)%nat)
            (flat_map (fun k => match choice ascii_lowercase (draws (Z.to_nat k)) with
                                | Some a => [a]
                                | None => []
                                end) ks).
Proof.
  induction ks as [| k ks [IHlen IHall]]; cbn [flat_map].
  - split; [reflexivity | constructor].
  - destruct (choice_lowercase (draws (Z.to_nat k))) as (a & -> & Ha).
    cbn [app List.length].
    split; [rewrite IHlen; reflexivity | constructor; assumption].
Qed.

(** X19: a generated game id has [GAME_ID_LENGTH] characters (none when the
    length is not positive), each a lowercase letter from a to z,
    whatever the random draws are. *)
Theorem generate_new_game_id_format (draws : nat -> nat) :
  String.length (generate_new_game_id draws) = Z.to_nat GAME_ID_LENGTH
  /\ Forall (fun a => (97 <= nat_of_ascii a <= 122)%nat)
            (list_ascii_of_string (generate_new_game_id draws)).
Proof.
  unfold generate_new_game_id.
  rewrite string_of_list_ascii_length, list_ascii_of_string_of_list_ascii.
  destruct (id_characters draws (range GAME_ID_LENGTH)) as [Hlen Hall].
  split; [| exact Hall].
  rewrite Hlen. unfold range. rewrite length_map, length_seq. reflexivity.
Qed.

Lemma dict_del_set_absent {V} (d : Dict V) (k : string) (v : V) :
  dict_contains d k = false -> dict_del (dict_set d k v) k = d.
Proof.
  unfold dict_contains, dict_del. induction d as [| [k0 v0] d IH]; simpl.
  - rewrite String.eqb_refl. reflexivity.
  - destruct (String.eqb k k0) eqn:E; simpl.
    + discriminate.
    + intro H. rewrite E. simpl. rewrite (IH H). reflexivity.
Qed.

(** X20: a game started and then ended under the id it was given leaves
    the runner as it was, provided the id was not in use; the games that
    were running are all still there, in the same order. *)
Theorem start_then_end_game (draws : nat -> nat) (r : GameRunner) :
  dict_contains (running_games r) (generate_new_game_id draws) = false ->
  (started <- start_game draws ;; end_game (fst started)) r = (Returned tt, r).
Proof.
  intro Hfree. destruct r as [d]. simpl in Hfree.
  unfold start_game, end_game, bind, gets, ret, modify.
  cbn [fst snd running_games].
  unfold dict_contains at 1. rewrite dict_get_set_same.
  cbn [fst snd running_games].
  rewrite (dict_del_set_absent _ _ _ Hfree). reflexivity.
Qed.

(** X21: the queries of a game change nothing, whether they return or
    raise: after [is_finished], [get_state], [current_player] and the two
    team scores the game is the one they were called on. *)
Theorem queries_change_nothing (include_opponent_cards : bool) (g : Game) :
  snd (is_finished g) = g
  /\ snd (get_state g) = g
  /\ snd (current_player g) = g
  /\ snd (get_red_team_score include_opponent_cards g) = g
  /\ snd (get_blue_team_score include_opponent_cards g) = g.
Proof.
  repeat split; apply ReadOnly_state.
  - apply is_finished_ReadOnly.
  - apply get_state_ReadOnly.
  - apply current_player_ReadOnly.
  - apply get_red_team_score_ReadOnly.
  - apply get_blue_team_score_ReadOnly.
Qed.

End Engine.

(** ** Scenarios *)

(** C1 as stated fails: the first player discards its last card, the action
    leaves the board in the no-cards end-turn phase, and after
    [play_single_step] it is still the first player's turn in that phase:
    the indices have not advanced and the phase is not the draw phase. *)
Lemma no_cards_end_turn_keeps_the_turn :
  initialized (sample_game [five_of_hearts]) = true
  /\ fst (is_finished sample_piles_remaining (sample_game [five_of_hearts])) = Returned false
  /\ option_map phase
       (board (snd (ask_current_player sample_total_value discard_first_card false
                      (sample_game [five_of_hearts]))))
     = Some NO_CARDS_END_TURN_PHASE
  /\ exists g',
      play_single_step sample_total_value sample_piles_remaining discard_first_card false
        (sample_game [five_of_hearts]) = (Returned tt, g')
      /\ current_player_index g' = Some 0
      /\ current_team_index g' = Some 0
      /\ option_map phase (board g') = Some NO_CARDS_END_TURN_PHASE
      /\ ~ (current_player_index g' = Some ((0 + 1) mod NUM_PLAYERS)
            /\ current_team_index g' = Some ((0 + 1) mod NUM_TEAMS)
            /\ option_map phase (board g') = Some DRAW_PHASE).
Proof.
  split; [reflexivity |]. split; [reflexivity |]. split; [reflexivity |].
  eexists. split; [vm_compute; reflexivity |].
  split; [reflexivity |]. split; [reflexivity |]. split; [reflexivity |].
  intros (Hi & _). vm_compute in Hi. discriminate Hi.
Qed.

(** The first player discards one of its two cards: the turn passes to the
    second player and the second team, in the draw phase. *)
Lemma play_single_step_turn_boundary_witness :
  exists g',
    play_single_step sample_total_value sample_piles_remaining discard_first_card false
      (sample_game [five_of_hearts; king_of_hearts]) = (Returned tt, g')
    /\ current_player_index g' = Some 1
    /\ current_team_index g' = Some 1
    /\ option_map phase (board g') = Some DRAW_PHASE.
Proof.
  destruct (play_single_step_turn_boundary
              sample_total_value sample_piles_remaining discard_first_card false
              (sample_game [five_of_hearts; king_of_hearts])
              (snd (ask_current_player sample_total_value discard_first_card false
                      (sample_game [five_of_hearts; king_of_hearts])))
              (Some (Discard (DiscardCardAction_init five_of_hearts)))
              0 0
              (set_phase (with_stack (sample_board ACTION_PHASE)
                            [five_of_hearts; five_of_clubs]) END_TURN_PHASE)
              eq_refl eq_refl eq_refl eq_refl eq_refl eq_refl)
    as (g' & b' & Hrun & Hb & Hend & _).
  destruct (Hend eq_refl) as (Hi & Hj & Hph).
  exists g'. split; [exact Hrun |]. split; [exact Hi |]. split; [exact Hj |].
  rewrite Hb. simpl. rewrite Hph. reflexivity.
Defined.

(** A put of the last three cards is refused when the hand may not be
    cleared, and accepted when it may. *)
Lemma PutAction_validate_hand_clear_gate_witness :
  PutAction_validate sample_is_valid never_clear_hand false last_three_cards
  = (Returned false, last_three_cards)
  /\ PutAction_validate sample_is_valid (fun _ _ _ => true) false last_three_cards
     = (Returned true, last_three_cards).
Proof.
  split.
  - apply (PutAction_validate_hand_clear_gate sample_is_valid never_clear_hand false
             last_three_cards).
    + vm_compute. discriminate.
    + reflexivity.
  - reflexivity.
Defined.

(** Puts and discards outside their phases, a put without a joker in the
    play-joker phase, and a discard of a card that is not held. *)
Lemma validate_phase_legality_witness :
  PutAction_validate sample_is_valid never_clear_hand false
    (set_board (sample_board DRAW_PHASE) (three_of_five_cards three_fives))
  = (Returned false, set_board (sample_board DRAW_PHASE) (three_of_five_cards three_fives))
  /\ PutAction_validate sample_is_valid never_clear_hand false
       (set_board (sample_board PLAY_JOKER_PHASE) (three_of_five_cards three_fives))
     = (Returned false,
        set_board (sample_board PLAY_JOKER_PHASE) (three_of_five_cards three_fives))
  /\ DiscardCardAction_validate false
       (mkFrame (DiscardCardAction_init five_of_hearts)
                (mkPlayer HumanPlayer 0 [five_of_hearts] (Some RED))
                (sample_board END_TURN_PHASE))
     = (Returned false,
        mkFrame (DiscardCardAction_init five_of_hearts)
                (mkPlayer HumanPlayer 0 [five_of_hearts] (Some RED))
                (sample_board END_TURN_PHASE))
  /\ DiscardCardAction_validate false
       (mkFrame (DiscardCardAction_init the_joker)
                (mkPlayer HumanPlayer 0 [five_of_hearts] (Some RED))
                (sample_board ACTION_PHASE))
     = (Returned false,
        mkFrame (DiscardCardAction_init the_joker)
                (mkPlayer HumanPlayer 0 [five_of_hearts] (Some RED))
                (sample_board ACTION_PHASE)).
Proof.
  destruct (validate_phase_legality sample_is_valid never_clear_hand)
    as (Hput & Hjoker & Hdiscard & Hheld).
  split; [| split; [| split]].
  - apply Hput; simpl; discriminate.
  - apply Hjoker; [reflexivity |].
    simpl. repeat constructor.
  - apply Hdiscard. simpl. discriminate.
  - apply Hheld. reflexivity.
Defined.

(** The finished game is reported finished. *)
Lemma is_finished_iff_witness :
  is_finished sample_piles_remaining finished_game = (Returned true, finished_game)
  /\ is_finished sample_piles_remaining (sample_game [five_of_hearts])
     = (Returned false, sample_game [five_of_hearts]).
Proof.
  split.
  - destruct (is_finished_iff sample_piles_remaining finished_game
                {| deck := [nine_of_clubs]; left_pile := [];
                   right_pile := [queen_of_clubs]; stack := [five_of_clubs];
                   red_team_series := [mkSeries [five_of_hearts; five_of_spades; five_of_hearts]];
                   blue_team_series := []; phase := DRAW_PHASE |}
                [mkPlayer HumanPlayer 0 [] (Some RED);
                 mkPlayer HumanPlayer 1 [five_of_spades] (Some BLUE);
                 mkPlayer HumanPlayer 2 [king_of_hearts] (Some RED);
                 mkPlayer HumanPlayer 3 [king_of_hearts] (Some BLUE)]
                eq_refl eq_refl) as (r & Hrun & Hiff).
    + intros p Hin Hempty. simpl in Hin.
      destruct Hin as [<- | [<- | [<- | [<- | []]]]]; try discriminate Hempty.
      exists RED. eexists. split; reflexivity.
    + rewrite Hrun. f_equal. f_equal. apply Hiff. right.
      exists (mkPlayer HumanPlayer 0 [] (Some RED)), RED, (mkTeam [0; 2] RED true).
      repeat split; try reflexivity. left. reflexivity.
  - reflexivity.
Defined.

(** A step on a game that was never initialized. *)
Lemma play_single_step_uninitialized_witness :
  play_single_step sample_total_value sample_piles_remaining discard_first_card false
    (Game_init true)
  = (Raised (Exception "Game not initialized"), Game_init true).
Proof.
  apply (play_single_step_uninitialized sample_total_value sample_piles_remaining
           discard_first_card false (Game_init true)).
  reflexivity.
Defined.

(** A step on the finished game, whose second player would otherwise
    discard its five. *)
Lemma play_single_step_finished_witness :
  play_single_step sample_total_value sample_piles_remaining discard_first_card false
    finished_game
  = (Returned tt, finished_game).
Proof.
  apply (play_single_step_finished sample_total_value sample_piles_remaining
           discard_first_card false finished_game).
  - reflexivity.
  - reflexivity.
Defined.

(** C2: the code loses a card.  The first player of the dealt sample game
    holds one five of hearts and puts a series that names it twice.
    [validate] accepts the put, because it asks for each card whether the
    hand holds it and not how often.  In [_execute] the first [pop] takes
    the five of hearts out of the hand, so the second [pop] asks for a
    card that is no longer held: the execution raises with no series laid
    down, and the game holds the deck's cards less the five of hearts.
    Nor could the execution complete without breaking the count: a game
    with this series on its board holds two fives of hearts, and the deck
    has one. *)
Theorem put_naming_a_card_twice_loses_it :
  initialize_game 5 1 [] sample_deck (Game_init false) = (Returned tt, sample_start)
  /\ Permutation (all_cards sample_action_phase) sample_deck
  /\ copies five_of_hearts (all_cards sample_action_phase) = 1%nat
  /\ exists f f1 f',
       seat five_of_hearts_twice 0 sample_action_phase = Some f
       /\ PutAction_validate sample_is_valid never_clear_hand false f = (Returned true, f)
       /\ pop_from_hand five_of_hearts f = (Returned five_of_hearts, f1)
       /\ Hand_contains (hand (fr_player f1)) five_of_hearts = false
       /\ PutAction__execute f = (Raised ValueError, f')
       /\ fr_board f' = fr_board f
       /\ hand (fr_player f')
          = [five_of_spades; five_of_clubs; king_of_hearts; queen_of_clubs]
       /\ Permutation sample_deck
            (five_of_hearts :: all_cards (unseat f' 0 sample_action_phase))
       /\ ~ Permutation (all_cards (unseat f' 0 sample_action_phase)) sample_deck
       /\ forall g' b,
            board g' = Some b ->
            In (series five_of_hearts_twice) (red_team_series b) ->
            ~ Permutation (all_cards g') sample_deck.
Proof.
  assert (Hinit : initialize_game 5 1 [] sample_deck (Game_init false)
                  = (Returned tt, sample_start)) by (vm_compute; reflexivity).
  assert (Hdeck : Permutation (all_cards sample_action_phase) sample_deck).
  { change (all_cards sample_action_phase) with (all_cards sample_start).
    exact (initialize_game_cards 5 1 [] sample_deck false sample_start Hinit). }
  split; [exact Hinit |].
  split; [exact Hdeck |].
  split; [reflexivity |].
  eexists. eexists. eexists.
  split; [reflexivity |].
  split; [reflexivity |].
  split; [reflexivity |].
  split; [reflexivity |].
  split; [reflexivity |].
  split; [reflexivity |].
  split; [reflexivity |].
  split.
  - apply Permutation_trans with (all_cards sample_action_phase);
      [apply Permutation_sym; exact Hdeck |].
    exact (Permutation_sym
             (Permutation_middle
                [queen_of_clubs; the_joker; two_of_clubs; king_of_hearts]
                ([five_of_spades; five_of_clubs; king_of_hearts; queen_of_clubs]
                 ++ repeat nine_of_clubs 15)
                five_of_hearts)).
  - split.
    + intro H. apply Permutation_length in H. vm_compute in H. discriminate H.
    + intros g' b Hb Hin H.
      apply (copies_Permutation five_of_hearts) in H.
      unfold all_cards in H. rewrite Hb, copies_app in H.
      pose proof (copies_laid_down five_of_hearts _ b (or_introl Hin)) as Hlaid.
      change (copies five_of_hearts (cards (series five_of_hearts_twice))) with 2%nat in Hlaid.
      change (copies five_of_hearts sample_deck) with 1%nat in H.
      lia.
Qed.




(** After a put and a discard of the first player the cards of the game
    are still those of the deck. *)
Lemma card_conservation_witness :
  Permutation (all_cards sample_turn) sample_deck.
Proof.
  apply (card_conservation sample_is_valid never_clear_hand 5 1 [] sample_deck sample_turn).
  unfold sample_turn.
  apply (played_step _ _ _ _ _ _
           (after_put three_fives 0 (in_phase ACTION_PHASE sample_start))).
  - apply (played_step _ _ _ _ _ _ (in_phase ACTION_PHASE sample_start)).
    + apply (played_step _ _ _ _ _ _ sample_start).
      * apply (played_initial _ _ _ _ _ _ false). vm_compute. reflexivity.
      * eapply step_in_phase. vm_compute. reflexivity.
    + eapply step_after_put; vm_compute; reflexivity.
  - eapply step_after_discard; vm_compute; reflexivity.
Defined.

(** Three fives laid down from a hand that holds each of them once. *)
Lemma PutAction__execute_returns_if_held_witness :
  exists f', PutAction__execute (three_of_five_cards three_fives) = (Returned tt, f').
Proof.
  apply (PutAction__execute_returns_if_held (three_of_five_cards three_fives) RED).
  - reflexivity.
  - intro x. unfold copies. simpl.
    destruct (Card_eqb x five_of_hearts), (Card_eqb x five_of_spades),
      (Card_eqb x five_of_clubs), (Card_eqb x two_of_clubs),
      (Card_eqb x king_of_hearts); simpl; lia.
Defined.

(** Three of five cards laid down: two cards stay in the hand. *)
Lemma PutAction__execute_effect_witness :
  exists h',
    fr_player (snd (PutAction__execute (three_of_five_cards three_fives)))
    = with_hand (fr_player (three_of_five_cards three_fives)) h'
    /\ len h' = 2.
Proof.
  destruct (PutAction__execute_effect (three_of_five_cards three_fives)
              (snd (PutAction__execute (three_of_five_cards three_fives))) RED
              eq_refl eq_refl) as (h' & Hf & _ & Hlen).
  exists h'. split; [rewrite Hf; reflexivity | exact Hlen].
Defined.

(** The last three cards laid down where the hand may be cleared: the
    action reports the no-cards phase. *)
Lemma PutAction_clears_hand_only_if_allowed_witness :
  PutAction__target_phase (snd (PutAction__execute last_three_cards))
  = (Returned NO_CARDS_PHASE, snd (PutAction__execute last_three_cards)).
Proof.
  destruct (PutAction_clears_hand_only_if_allowed sample_is_valid (fun _ _ _ => true) false
              last_three_cards (snd (PutAction__execute last_three_cards))
              eq_refl eq_refl) as (ph & Hrun & _ & Hiff & _).
  rewrite Hrun. f_equal. f_equal. apply Hiff. reflexivity.
Defined.

(** A discard of one of two cards. *)
Lemma DiscardCardAction_validated_effect_witness :
  exists f',
    DiscardCardAction__execute
      (mkFrame (DiscardCardAction_init five_of_hearts)
               (mkPlayer HumanPlayer 0 [five_of_hearts; king_of_hearts] (Some RED))
               (sample_board ACTION_PHASE))
    = (Returned tt, f')
    /\ stack (fr_board f') = [five_of_hearts; five_of_clubs]
    /\ DiscardCardAction__target_phase f' = (Returned END_TURN_PHASE, f').
Proof.
  destruct (DiscardCardAction_validated_effect false
              (mkFrame (DiscardCardAction_init five_of_hearts)
                       (mkPlayer HumanPlayer 0 [five_of_hearts; king_of_hearts] (Some RED))
                       (sample_board ACTION_PHASE))
              eq_refl) as (h' & f' & Hrun & Hf & _ & Hph).
  exists f'. split; [exact Hrun |]. split; [rewrite Hf; reflexivity | exact Hph].
Defined.

(** Twenty-four cards are enough for hands of five and piles of one. *)
Lemma initialize_game_returns_if_enough_witness :
  exists g',
    initialize_game 5 1 [] sample_deck (Game_init false) = (Returned tt, g')
    /\ initialized g' = true.
Proof.
  apply (initialize_game_returns_if_enough 5 1 [] sample_deck (Game_init false)).
  - reflexivity.
  - vm_compute. lia.
Defined.

(** The sample deck dealt. *)
Lemma initialize_game_deals_witness :
  exists hs lp rp c d,
    sample_start = dealt_game [] (Game_init false) hs lp rp c d
    /\ Permutation sample_deck (List.concat hs ++ lp ++ rp ++ c :: d).
Proof.
  destruct (initialize_game_deals 5 1 [] sample_deck (Game_init false) sample_start
              eq_refl eq_refl) as (hs & lp & rp & c & d & Hg & _ & _ & _ & _ & Hd).
  exists hs, lp, rp, c, d. split; assumption.
Defined.

(** A second [initialize_game] on the sample game. *)
Lemma initialize_game_idempotent_witness :
  initialize_game 5 1 [] sample_deck sample_start = (Returned tt, sample_start).
Proof.
  apply (initialize_game_idempotent 5 1 [] sample_deck (Game_init false) sample_start).
  vm_compute. reflexivity.
Defined.

(** The counters of the sample game, and after a step of it. *)
Lemma turn_counters_stay_in_step_witness :
  in_step sample_start
  /\ in_step (snd (play_single_step sample_total_value sample_piles_remaining
                     discard_first_card false sample_start)).
Proof.
  destruct (turn_counters_stay_in_step sample_total_value sample_piles_remaining
              5 1 [] sample_deck discard_first_card) as (Hinit & Hstep).
  assert (H0 : in_step sample_start).
  { apply (Hinit (Game_init false) sample_start eq_refl). vm_compute. reflexivity. }
  split; [exact H0 |].
  apply (Hstep false sample_start
           (fst (play_single_step sample_total_value sample_piles_remaining
                   discard_first_card false sample_start))
           _ H0).
  apply surjective_pairing.
Defined.

(** A player that raises [ValueError]. *)
Lemma play_single_step_player_raises_witness :
  play_single_step sample_total_value sample_piles_remaining
    (fun _ _ _ t => (Raised ValueError, t)) false (sample_game [five_of_hearts])
  = (Raised ValueError, sample_game [five_of_hearts]).
Proof.
  apply (play_single_step_player_raises sample_total_value sample_piles_remaining
           (fun _ _ _ t => (Raised ValueError, t)) false
           (sample_game [five_of_hearts]) (sample_game [five_of_hearts]) ValueError).
  - reflexivity.
  - reflexivity.
  - vm_compute. reflexivity.
Defined.

(** Four turns bring the first player and the first team back. *)
Lemma turns_cycle_witness :
  exists g',
    turns 4 sample_start = (Returned tt, g')
    /\ current_player_index g' = Some 0
    /\ current_team_index g' = Some 0.
Proof.
  destruct (turns_cycle 4 sample_start 0 0
              {| deck := [queen_of_clubs]; left_pile := [the_joker];
                 right_pile := [two_of_clubs]; stack := [king_of_hearts];
                 red_team_series := []; blue_team_series := [];
                 phase := DRAW_PHASE |})
    as (g' & Hrun & Hi & Hj & _); try reflexivity; try (unfold NUM_PLAYERS, NUM_TEAMS; lia).
  exists g'. split; [exact Hrun |].
  split; [apply Hi; reflexivity | apply Hj; reflexivity].
Defined.

(** The sample game has just been dealt and its deck holds a card. *)
Lemma fresh_game_finished_by_deck_only_witness :
  is_finished sample_piles_remaining sample_start = (Returned false, sample_start).
Proof.
  destruct (fresh_game_finished_by_deck_only sample_piles_remaining 5 1 [] sample_deck
              (Game_init false) sample_start eq_refl eq_refl) as (b & Hb & Hrun).
  rewrite Hrun. injection Hb as <-. reflexivity.
Defined.

(** The scores of the finished game: red has a series of three fives and
    has grabbed a pile; blue holds a five and a king. *)
Lemma team_scores_witness :
  get_red_team_score sample_total_value false finished_game = (Returned 115, finished_game)
  /\ get_blue_team_score sample_total_value false finished_game = (Returned 0, finished_game)
  /\ get_red_team_score sample_total_value true finished_game = (Returned 130, finished_game).
Proof.
  destruct (team_scores sample_total_value finished_game
              [mkPlayer HumanPlayer 0 [] (Some RED);
               mkPlayer HumanPlayer 1 [five_of_spades] (Some BLUE);
               mkPlayer HumanPlayer 2 [king_of_hearts] (Some RED);
               mkPlayer HumanPlayer 3 [king_of_hearts] (Some BLUE)]
              {| deck := [nine_of_clubs]; left_pile := [];
                 right_pile := [queen_of_clubs]; stack := [five_of_clubs];
                 red_team_series := [mkSeries [five_of_hearts; five_of_spades; five_of_hearts]];
                 blue_team_series := []; phase := DRAW_PHASE |}
              (mkTeam [0; 2] RED true) (mkTeam [1; 3] BLUE false) []
              eq_refl eq_refl eq_refl) as (Hred & Hblue & Hred' & _).
  split; [exact Hred |]. split; [exact Hblue |].
  apply Hred'. intros x Hx. simpl in Hx.
  destruct Hx as [<- | [<- | []]]; eexists; reflexivity.
Defined.

(** A game that was never initialized. *)
Lemma queries_need_a_board_witness :
  is_finished sample_piles_remaining (Game_init true) = (Raised AttributeError, Game_init true)
  /\ current_player (Game_init true) = (Raised TypeError, Game_init true).
Proof.
  destruct (queries_need_a_board sample_total_value sample_piles_remaining (Game_init true))
    as (Hboard & Hplayers).
  split; [apply Hboard | apply Hplayers]; reflexivity.
Defined.

(** A first game started on an empty runner and ended again. *)
Lemma start_then_end_game_witness :
  (started <- start_game 4 (fun k => k) ;; end_game (fst started)) GameRunner_init
  = (Returned tt, GameRunner_init).
Proof.
  apply (start_then_end_game 4 (fun k => k) GameRunner_init).
  reflexivity.
Defined.
